(** * Financial dashboard: ingestion, column classification and chart dispatch

    A shallow embedding of [finance_dashboard/app.py].  The script is a
    Streamlit page: every user interaction re-runs it from top to bottom
    against the session state.  One run is modelled as a computation in a
    small state/log/exception monad: the state is [st.session_state], the log
    collects the [st.*] calls that put something on the page, and an uncaught
    Python exception aborts the run.

    The outside world (the market-data provider, the HTTP endpoint, the CSV
    parser) is an environment record whose fields give the outcome of each
    external call.  pandas is modelled as far as the script observes it: a
    frame is a row count plus an ordered list of labelled, typed columns.
    Its CSV reader and writer are modelled on a fragment of CSV, to relate
    what the data tab exports to what the upload handler reads. *)

From Stdlib Require Import String Ascii ZArith Bool Arith Lia DecimalString DecimalPos
  DecimalZ List.
Import ListNotations.
Open Scope string_scope.
Local Set Warnings "-register-all".

(* ================================================================== *)
(** * Python values *)

(** What [response.json()] returns: [None], [bool], [int], [float], [str],
    [list] or [dict].  A float is carried as a decimal literal
    [mantissa * 10 ^ exponent]; the script never computes with it.  A [dict]
    keeps its insertion order; [dict_get] reads the first binding of a key. *)
Inductive json : Type :=
| JNull
| JBool (b : bool)
| JInt (z : Z)
| JFloat (mantissa exponent : Z)
| JStr (s : string)
| JArr (items : list json)
| JObj (fields : list (string * json)).

Fixpoint dict_get {A} (k : string) (d : list (string * A)) : option A :=
  match d with
  | [] => None
  | (k', v) :: d' => if String.eqb k k' then Some v else dict_get k d'
  end.

Definition dict_keys {A} (d : list (string * A)) : list string := map fst d.

(** Python exceptions.  The last four are the [requests.exceptions] classes
    the script can meet; [Timeout], [HTTPError] and [JSONDecodeError] are
    subclasses of [RequestException]. *)
Inductive Exn : Type :=
| KeyError (key : string)
| AttributeError (msg : string)
| TypeError (msg : string)
| ValueError (msg : string)
| OtherException (msg : string)
| Timeout (msg : string)
| HTTPError (msg : string)
| JSONDecodeError (msg : string)
| RequestException (msg : string).

Definition is_Timeout (e : Exn) : bool :=
  match e with
  | Timeout _ => true
  | _ => false
  end.

Definition is_RequestException (e : Exn) : bool :=
  match e with
  | Timeout _ | HTTPError _ | JSONDecodeError _ | RequestException _ => true
  | _ => false
  end.

(** [str(e)] *)
Definition exn_str (e : Exn) : string :=
  match e with
  | KeyError k => "'" ++ k ++ "'"
  | AttributeError m | TypeError m | ValueError m | OtherException m
  | Timeout m | HTTPError m | JSONDecodeError m | RequestException m => m
  end.

(** [str(n)] for a natural number. *)
Definition str_of_nat (n : nat) : string :=
  NilEmpty.string_of_uint (Nat.to_uint n).

(** [s.upper()] on ASCII letters. *)
Definition upper_ascii (c : ascii) : ascii :=
  let n := nat_of_ascii c in
  if ((97 <=? n) && (n <=? 122))%nat then ascii_of_nat (n - 32)%nat else c.

Fixpoint upper (s : string) : string :=
  match s with
  | EmptyString => EmptyString
  | String c s' => String (upper_ascii c) (upper s')
  end.

(* ================================================================== *)
(** * Frames *)

(** Column labels: strings, or integers when pandas numbers the columns
    itself. *)
Inductive Label : Type :=
| LStr (s : string)
| LInt (n : nat).

Definition Label_eqb (a b : Label) : bool :=
  match a, b with
  | LStr s, LStr t => String.eqb s t
  | LInt n, LInt m => Nat.eqb n m
  | _, _ => false
  end.

Lemma Label_eqb_spec a b : reflect (a = b) (Label_eqb a b).
Proof.
  destruct a as [s|n], b as [t|m]; simpl; try (constructor; discriminate).
  - destruct (String.eqb_spec s t); constructor; congruence.
  - destruct (Nat.eqb_spec n m); constructor; congruence.
Qed.

Lemma Label_eqb_refl a : Label_eqb a a = true.
Proof. destruct (Label_eqb_spec a a); congruence. Qed.

Fixpoint mem (l : Label) (ls : list Label) : bool :=
  match ls with
  | [] => false
  | l' :: ls' => Label_eqb l l' || mem l ls'
  end.

Lemma mem_In l ls : mem l ls = true <-> In l ls.
Proof.
  induction ls as [|a ls IH]; simpl.
  - split; [discriminate | tauto].
  - rewrite orb_true_iff, IH.
    destruct (Label_eqb_spec l a); split; intros [H|H]; auto; try discriminate.
Qed.

(** The dtypes the three sources can give a column. *)
Inductive Dtype : Type :=
| int64
| uint64
| float64
| bool_
| object
| datetime64_ns
| datetime64_ns_tz.

(** One entry of a column: a Python value, [np.nan] (the missing-value
    marker) or a timestamp (nanoseconds since the epoch). *)
Inductive Cell : Type :=
| NaN
| Val (v : json)
| Timestamp (ns : Z).

Record Series : Type := mkSeries {
  name : Label;
  dtype : Dtype;
  values : list Cell
}.

(** A [pd.DataFrame] with the default [RangeIndex]: [index_len] rows and the
    columns in order. *)
Record DataFrame : Type := mkDataFrame {
  index_len : nat;
  series : list Series
}.

(** [df.columns.tolist()] *)
Definition columns (df : DataFrame) : list Label := map name (series df).

(** [len(df)] *)
Definition len (df : DataFrame) : nat := index_len df.

(** [df.empty]: some axis has length zero. *)
Definition empty (df : DataFrame) : bool :=
  ((index_len df =? 0) || (length (series df) =? 0))%nat.

(** [label in df.columns] *)
Definition has_column (l : string) (df : DataFrame) : bool :=
  mem (LStr l) (columns df).

(** [df[label]]: the column with that label, [KeyError] when there is none. *)
Fixpoint find_series (l : Label) (cs : list Series) : option Series :=
  match cs with
  | [] => None
  | c :: cs' => if Label_eqb l (name c) then Some c else find_series l cs'
  end.

Definition getitem (df : DataFrame) (l : string) : Exn + Series :=
  match find_series (LStr l) (series df) with
  | Some c => inr c
  | None => inl (KeyError l)
  end.

(** [df[labels]]: the listed columns, in the listed order. *)
Fixpoint pick (cs : list Series) (ls : list Label) : list Series :=
  match ls with
  | [] => []
  | l :: ls' =>
      match find_series l cs with
      | Some c => c :: pick cs ls'
      | None => pick cs ls'
      end
  end.

Definition getitems (df : DataFrame) (ls : list Label) : DataFrame :=
  mkDataFrame (index_len df) (pick (series df) ls).

(** ** [select_dtypes] *)

(** The selectors the script passes to [include=]. *)
Inductive Selector : Type :=
| sel_number
| sel_datetime64
| sel_object.

(** Whether a dtype is selected: ['number'] takes the integer and float
    dtypes (not [bool]); ['datetime64'] takes the timezone-naive datetime
    dtype only; ['object'] takes [object]. *)
Definition dtype_matches (sel : Selector) (d : Dtype) : bool :=
  match sel, d with
  | sel_number, (int64 | uint64 | float64) => true
  | sel_datetime64, datetime64_ns => true
  | sel_object, object => true
  | _, _ => false
  end.

Definition select_dtypes (include : list Selector) (df : DataFrame) : DataFrame :=
  mkDataFrame (index_len df)
    (filter (fun c => existsb (fun sel => dtype_matches sel (dtype c)) include)
            (series df)).

(** Lines 224-225, and the [object] selection of lines 296 and 304. *)
Definition numeric_cols (df : DataFrame) : list Label :=
  columns (select_dtypes [sel_number] df).

Definition datetime_cols (df : DataFrame) : list Label :=
  columns (select_dtypes [sel_datetime64] df).

Definition object_cols (df : DataFrame) : list Label :=
  columns (select_dtypes [sel_object] df).

(** ** Column classification *)

Inductive Tag : Type :=
| Numeric
| Temporal
| Categorical
| Unsupported.

(** A column carries a tag when the corresponding selection lists it;
    [Unsupported] is a column of the frame that no selection lists. *)
Definition has_tag (df : DataFrame) (l : Label) (t : Tag) : Prop :=
  match t with
  | Numeric => In l (numeric_cols df)
  | Temporal => In l (datetime_cols df)
  | Categorical => In l (object_cols df)
  | Unsupported =>
      In l (columns df) /\ ~ In l (numeric_cols df) /\
      ~ In l (datetime_cols df) /\ ~ In l (object_cols df)
  end.

(** The classification as a mapping, column by column in frame order. *)
Definition tag_of_dtype (d : Dtype) : Tag :=
  if dtype_matches sel_number d then Numeric
  else if dtype_matches sel_datetime64 d then Temporal
  else if dtype_matches sel_object d then Categorical
  else Unsupported.

Definition classify (df : DataFrame) : list (Label * Tag) :=
  map (fun c => (name c, tag_of_dtype (dtype c))) (series df).

(* ================================================================== *)
(** * The pandas constructor on parsed JSON *)

(** An entry of an object array before type inference: a Python value, or
    [None] here for [np.nan]. *)
Definition PyObj : Type := option json.

Definition INT64_MIN : Z := - 2 ^ 63.
Definition INT64_MAX : Z := 2 ^ 63 - 1.
Definition UINT64_MAX : Z := 2 ^ 64 - 1.

(** The flags [lib.maybe_convert_objects] collects while it scans a column. *)
Record Seen : Type := mkSeen {
  null_ : bool;
  nan_ : bool;
  uint_ : bool;
  sint_ : bool;
  float_ : bool;
  int_ : bool;
  bool_seen : bool;
  object_ : bool
}.

Definition seen0 : Seen := mkSeen false false false false false false false false.

Definition saw (s : Seen) (o : PyObj) : Seen :=
  match o with
  | None =>
      mkSeen (null_ s) true (uint_ s) (sint_ s) (float_ s) (int_ s) (bool_seen s) (object_ s)
  | Some JNull =>
      mkSeen true (nan_ s) (uint_ s) (sint_ s) (float_ s) (int_ s) (bool_seen s) (object_ s)
  | Some (JBool _) =>
      mkSeen (null_ s) (nan_ s) (uint_ s) (sint_ s) (float_ s) (int_ s) true (object_ s)
  | Some (JFloat _ _) =>
      mkSeen (null_ s) (nan_ s) (uint_ s) (sint_ s) true (int_ s) (bool_seen s) (object_ s)
  | Some (JInt z) =>
      if null_ s then
        mkSeen (null_ s) (nan_ s) (uint_ s) (sint_ s) (float_ s) true (bool_seen s) (object_ s)
      else
        let u := (uint_ s || (INT64_MAX <? z)%Z)%bool in
        let g := (sint_ s || (z <? 0)%Z)%bool in
        let o' := ((u && g) || (UINT64_MAX <? z)%Z || (z <? INT64_MIN)%Z)%bool in
        mkSeen (null_ s) (nan_ s) u g (float_ s) true (bool_seen s) (object_ s || o')
  | Some (JStr _) | Some (JArr _) | Some (JObj _) =>
      mkSeen (null_ s) (nan_ s) (uint_ s) (sint_ s) (float_ s) (int_ s) (bool_seen s) true
  end.

Definition scan (objs : list PyObj) : Seen := fold_left saw objs seen0.

(** The dtype the scan settles on. *)
Definition inferred_dtype (s : Seen) : Dtype :=
  if object_ s then object
  else if bool_seen s then
    (if null_ s || nan_ s || int_ s || float_ s then object else bool_)
  else if null_ s || nan_ s then
    (if float_ s || int_ s || nan_ s then float64 else object)
  else if float_ s then float64
  else if int_ s then (if uint_ s then uint64 else int64)
  else object.

(** The entry as stored under the inferred dtype: a float column turns
    integers into floats and [None] into [np.nan]. *)
Definition as_cell (d : Dtype) (o : PyObj) : Cell :=
  match o with
  | None => NaN
  | Some v =>
      match d, v with
      | float64, JInt z => Val (JFloat z 0)
      | float64, JNull => NaN
      | _, _ => Val v
      end
  end.

Definition maybe_convert_objects (l : Label) (objs : list PyObj) : Series :=
  let d := inferred_dtype (scan objs) in
  mkSeries l d (map (as_cell d) objs).

(** Keys in order of first appearance. *)
Fixpoint unique (ks : list string) : list string :=
  match ks with
  | [] => []
  | k :: ks' => k :: filter (fun k' => negb (String.eqb k' k)) (unique ks')
  end.

Definition record : Type := list (string * json).

(** [pd.DataFrame(records)] for a list of dicts: one row per dict, one
    column per key, [np.nan] where a dict lacks the key. *)
Definition from_records (recs : list record) : DataFrame :=
  let keys := unique (concat (map dict_keys recs)) in
  mkDataFrame (length recs)
    (map (fun k => maybe_convert_objects (LStr k) (map (dict_get k) recs)) keys).

Fixpoint all_dicts (data : list json) : option (list record) :=
  match data with
  | [] => Some []
  | JObj f :: data' => option_map (cons f) (all_dicts data')
  | _ :: _ => None
  end.

(** [list(row)] for a row of a list of lists; [None] when the element has no
    length. *)
Fixpoint chars (s : string) : list json :=
  match s with
  | EmptyString => []
  | String c s' => JStr (String c EmptyString) :: chars s'
  end.

Definition row_items (j : json) : option (list json) :=
  match j with
  | JArr items => Some items
  | JObj f => Some (map JStr (dict_keys f))
  | JStr s => Some (chars s)
  | _ => None
  end.

Fixpoint all_rows (data : list json) : option (list (list json)) :=
  match data with
  | [] => Some []
  | j :: data' =>
      match row_items j, all_rows data' with
      | Some r, Some rs => Some (r :: rs)
      | _, _ => None
      end
  end.

(** [pd.DataFrame(rows)] for a list of lists: as many columns as the longest
    row, numbered from 0; short rows are padded with [None]. *)
Definition from_rows (rows : list (list json)) : DataFrame :=
  let k := fold_right Nat.max 0 (map (@length json) rows) in
  mkDataFrame (length rows)
    (map (fun j =>
            maybe_convert_objects (LInt j)
              (map (fun r => Some (nth j r JNull)) rows))
         (seq 0 k)).

(** [pd.DataFrame(data)] for a Python list.  The first element decides the
    path: a dict takes the records path (and a later element that is not a
    dict raises), a list takes the rows path, anything else makes one column
    labelled 0. *)
Definition pd_DataFrame (data : list json) : Exn + DataFrame :=
  match data with
  | [] => inr (mkDataFrame 0 [])
  | JObj _ :: _ =>
      match all_dicts data with
      | Some recs => inr (from_records recs)
      | None => inl (AttributeError "object has no attribute 'keys'")
      end
  | JArr _ :: _ =>
      match all_rows data with
      | Some rows => inr (from_rows rows)
      | None => inl (TypeError "object has no len()")
      end
  | _ :: _ =>
      inr (mkDataFrame (length data)
             [maybe_convert_objects (LInt 0) (map Some data)])
  end.

(* ================================================================== *)
(** * What a run puts on the page *)

(** A table handed to [st.dataframe] or serialised for download.  The
    statistics of [describe] and [corr] are floating-point aggregates; the
    model records which statistics are taken over which frame. *)
Inductive Table : Type :=
| Plain (data : DataFrame)
| Describe (stats : list string) (data : DataFrame)
| Corr (method : string) (data : DataFrame).

(** [frame.describe()] on an all-numeric frame. *)
Definition describe (d : DataFrame) : Table :=
  Describe ["count"; "mean"; "std"; "min"; "25%"; "50%"; "75%"; "max"] d.

(** [frame.corr()]: the default method is Pearson. *)
Definition corr (d : DataFrame) : Table := Corr "pearson" d.

(** The traces of the price figure; styling arguments are left out. *)
Inductive Trace : Type :=
| Candlestick (x open high low close : Series) (trace_name : string)
| Scatter (x y : Series) (mode trace_name : string).

Inductive PxKind : Type :=
| px_line
| px_bar
| px_scatter
| px_area
| px_histogram
| px_box.

Inductive Figure : Type :=
| GoFigure (data : list Trace) (xaxis_title yaxis_title : option string)
| PxFigure (kind : PxKind) (data_frame : DataFrame) (x y color : option Label)
| PxImshow (img : Table).

(** A plotly-express call: the named columns must exist in the frame. *)
Definition px (kind : PxKind) (d : DataFrame) (x y color : option Label)
  : Exn + Figure :=
  let known o := match o with Some l => mem l (columns d) | None => true end in
  if known x && known y && known color
  then inr (PxFigure kind d x y color)
  else inl (ValueError "Value is not the name of a column in 'data_frame'").

(** The calls that put something on the page.  Widgets are inputs (see
    [Widgets]); pure layout calls (title, headers, dividers, columns, tabs,
    metrics, spinners) and icon arguments are left out. *)
Inductive Event : Type :=
| st_error (body : string)
| st_warning (body : string)
| st_info (body : string)
| st_success (body : string)
| st_markdown (body : string)
| st_dataframe (data : Table)
| st_download_button (csv_of : Table) (file_name : string)
| st_plotly_chart (fig : Figure).

(* ================================================================== *)
(** * Session state and the run monad *)

(** [st.session_state]: lines 17-19 set the three keys to [None], [None] and
    the empty dict when they are absent. *)
Record Session : Type := mkSession {
  df : option DataFrame;
  data_source : option string;
  ticker_data : list (string * string)
}.

Definition initial_session : Session := mkSession None None [].

Record Run (A : Type) : Type := mkRun {
  log : list Event;
  state : Session;
  result : Exn + A
}.
Arguments mkRun {A}.
Arguments log {A}.
Arguments state {A}.
Arguments result {A}.

Definition M (A : Type) : Type := Session -> Run A.

Definition ret {A} (a : A) : M A := fun s => mkRun [] s (inr a).

Definition bind {A B} (m : M A) (f : A -> M B) : M B :=
  fun s =>
    match m s with
    | mkRun l1 s1 (inl e) => mkRun l1 s1 (inl e)
    | mkRun l1 s1 (inr a) =>
        match f a s1 with
        | mkRun l2 s2 r2 => mkRun (l1 ++ l2)%list s2 r2
        end
    end.

Notation "x <- c1 ;; c2" := (bind c1 (fun x => c2))
  (at level 61, c1 at next level, right associativity).
Notation "c1 ;; c2" := (bind c1 (fun _ => c2))
  (at level 61, right associativity).

Definition emit (e : Event) : M unit := fun s => mkRun [e] s (inr tt).

Definition raise {A} (e : Exn) : M A := fun s => mkRun [] s (inl e).

(** Run an external call: its exception, if any, is raised here. *)
Definition call {A} (r : Exn + A) : M A :=
  match r with
  | inl e => raise e
  | inr a => ret a
  end.

Definition get : M Session := fun s => mkRun [] s (inr s).

Definition set_df (d : DataFrame) : M unit :=
  fun s => mkRun [] (mkSession (Some d) (data_source s) (ticker_data s)) (inr tt).

Definition set_data_source (k : string) : M unit :=
  fun s => mkRun [] (mkSession (df s) (Some k) (ticker_data s)) (inr tt).

Definition set_ticker_data (t : list (string * string)) : M unit :=
  fun s => mkRun [] (mkSession (df s) (data_source s) t) (inr tt).

(** [try: body except ...: handler].  [handler e] is [None] when no except
    clause matches [e], which then propagates.  Nothing is rolled back. *)
Definition try_except {A} (body : M A) (handler : Exn -> option (M A)) : M A :=
  fun s =>
    match body s with
    | mkRun l1 s1 (inr a) => mkRun l1 s1 (inr a)
    | mkRun l1 s1 (inl e) =>
        match handler e with
        | None => mkRun l1 s1 (inl e)
        | Some h =>
            match h s1 with
            | mkRun l2 s2 r2 => mkRun (l1 ++ l2)%list s2 r2
            end
        end
    end.

(* ================================================================== *)
(** * The outside world and the widgets *)

(** What [yf.Ticker(t).history(period=p)] returns: a frame whose index has not
    been turned into a column yet. *)
Record History : Type := mkHistory {
  index_name : option string;
  index_dtype : Dtype;
  index_values : list Cell;
  history_columns : list Series
}.

Record Response : Type := mkResponse {
  status_code : nat;
  body_json : option json
}.

Record UploadedFile : Type := mkUploadedFile {
  file_name : string;
  file_bytes : string
}.

(** The outcome of each external call of a run.  [st.cache_data] only
    memoises the two fetch functions, so the fields stand for the memoised
    outcome. *)
Record Env : Type := mkEnv {
  yf_history : string -> string -> Exn + History;
  requests_get : string -> Exn + Response;
  read_csv : UploadedFile -> Exn + DataFrame;
  now_stamp : string
}.

(** The widget values of a run, by widget key.  A select box or multiselect
    the user has not touched is [None]. *)
Record Widgets : Type := mkWidgets {
  data_source_selector : string;
  ticker_input : string;
  period_select : string;
  fetch_stock_button : bool;
  api_url_input : string;
  fetch_api_button : bool;
  csv_uploader : option UploadedFile;
  column_selector : option (list Label);
  chart_type : option Label;
  y_axis : option Label;
  x_axis : option Label;
  color_by : option Label;
  dist_column : option Label
}.

(** [st.selectbox(label, options)]: the user's choice when it is one of the
    options, otherwise the first option; [None] when there is no option. *)
Definition selectbox (options : list Label) (chosen : option Label) : option Label :=
  match chosen with
  | Some c => if mem c options then Some c else hd_error options
  | None => hd_error options
  end.

(** [st.multiselect(label, options, default=...)] *)
Definition multiselect (options default : list Label) (chosen : option (list Label))
  : list Label :=
  match chosen with
  | Some cs => filter (fun c => mem c options) cs
  | None => default
  end.

(* ================================================================== *)
(** * The fetch functions (lines 23-65) *)

(** [df.reset_index(inplace=True)]: the index becomes the first column, under
    its name, or under [index] ([level_0] when that is taken) if it has none;
    a name that is already a column raises. *)
Definition reset_index (h : History) : Exn + DataFrame :=
  let cols := map name (history_columns h) in
  let l :=
    match index_name h with
    | Some n => n
    | None => if mem (LStr "index") cols then "level_0" else "index"
    end in
  if mem (LStr l) cols
  then inl (ValueError ("cannot insert " ++ l ++ ", already exists"))
  else inr (mkDataFrame (length (index_values h))
              (mkSeries (LStr l) (index_dtype h) (index_values h)
               :: history_columns h)).

Definition fetch_yfinance_data (env : Env) (ticker period : string)
  : M (option DataFrame) :=
  try_except
    (h <- call (yf_history env ticker period) ;;
     d <- call (reset_index h) ;;
     ret (Some d))
    (fun e =>
       Some (emit (st_error ("Error fetching data for " ++ ticker ++ ": " ++ exn_str e)) ;;
             ret None)).

(** [response.raise_for_status()] *)
Definition raise_for_status (r : Response) : Exn + unit :=
  if ((400 <=? status_code r) && (status_code r <? 600))%nat
  then inl (HTTPError (str_of_nat (status_code r) ++ " Error"))
  else inr tt.

(** [response.json()] *)
Definition response_json (r : Response) : Exn + json :=
  match body_json r with
  | Some data => inr data
  | None => inl (JSONDecodeError "Expecting value")
  end.

Definition fetch_api_data (env : Env) (url : string) : M (option DataFrame) :=
  try_except
    (response <- call (requests_get env url) ;;
     call (raise_for_status response) ;;
     data <- call (response_json response) ;;
     match data with
     | JArr items =>
         d <- call (pd_DataFrame items) ;;
         ret (Some d)
     | JObj _ =>
         d <- call (pd_DataFrame [data]) ;;
         ret (Some d)
     | _ =>
         emit (st_error "API response format not supported") ;;
         ret None
     end)
    (fun e =>
       if is_Timeout e then
         Some (emit (st_error "Request timed out. Please try again.") ;; ret None)
       else if is_RequestException e then
         Some (emit (st_error ("API error: " ++ exn_str e)) ;; ret None)
       else None).

Definition validate_dataframe (d : option DataFrame) : M bool :=
  match d with
  | None =>
      emit (st_warning "No data available to display.") ;; ret false
  | Some d' =>
      if empty d' then
        emit (st_warning "No data available to display.") ;; ret false
      else ret true
  end.

(* ================================================================== *)
(** * The sidebar (lines 68-149) *)

Definition sidebar (env : Env) (w : Widgets) : M unit :=
  let source := data_source_selector w in
  if source =? "yFinance" then
    let ticker := ticker_input w in
    let period := period_select w in
    if fetch_stock_button w then
      d <- fetch_yfinance_data env (upper ticker) period ;;
      match d with
      | Some d' =>
          if negb (empty d') then
            set_df d' ;;
            set_data_source "yFinance" ;;
            set_ticker_data [("ticker", upper ticker); ("period", period)] ;;
            emit (st_success ("Loaded " ++ str_of_nat (len d') ++ " records"))
          else ret tt
      | None => ret tt
      end
    else ret tt
  else if source =? "API Link" then
    let api_url := api_url_input w in
    if fetch_api_button w then
      if negb (api_url =? "") then
        d <- fetch_api_data env api_url ;;
        match d with
        | Some d' =>
            if negb (empty d') then
              set_df d' ;;
              set_data_source "API" ;;
              emit (st_success ("Loaded " ++ str_of_nat (len d') ++ " records"))
            else ret tt
        | None => ret tt
        end
      else emit (st_warning "Please enter an API URL")
    else ret tt
  else
    match csv_uploader w with
    | Some uploaded_file =>
        try_except
          (d <- call (read_csv env uploaded_file) ;;
           set_df d ;;
           set_data_source "CSV" ;;
           emit (st_success ("Loaded " ++ str_of_nat (len d) ++ " rows from "
                             ++ file_name uploaded_file)))
          (fun e => Some (emit (st_error ("Error loading file: " ++ exn_str e))))
    | None => ret tt
    end.

(* ================================================================== *)
(** * The main content (lines 152-448) *)

Definition opt_eqb (a : option string) (b : string) : bool :=
  match a with
  | Some a' => a' =? b
  | None => false
  end.

(** [d.get(key, default)] *)
Definition dict_get_default (key default : string) (d : list (string * string))
  : string :=
  match dict_get key d with
  | Some v => v
  | None => default
  end.

(** [str(x)] for the value of [st.session_state.data_source]. *)
Definition str_of_source (k : option string) : string :=
  match k with
  | Some k' => k'
  | None => "None"
  end.

(** Lines 161-174: the banner naming the source. *)
Definition source_info (d : DataFrame) : M unit :=
  s <- get ;;
  if opt_eqb (data_source s) "yFinance" then
    let ticker_info := ticker_data s in
    emit (st_info (":material/show_chart: **"
                   ++ dict_get_default "ticker" "N/A" ticker_info ++ "** | "
                   ++ "Period: " ++ dict_get_default "period" "N/A" ticker_info ++ " | "
                   ++ str_of_nat (len d) ++ " records"))
  else
    emit (st_info (":material/database: **" ++ str_of_source (data_source s) ++ "** | "
                   ++ str_of_nat (len d) ++ " records")).

(** Lines 188-218: preview and CSV export of the selected columns. *)
Definition data_tab (env : Env) (w : Widgets) (d : DataFrame) : M unit :=
  let all_columns := columns d in
  let selected_columns :=
    multiselect all_columns
      (firstn (Nat.min 10 (length all_columns)) all_columns)
      (column_selector w) in
  match selected_columns with
  | _ :: _ =>
      emit (st_dataframe (Plain (getitems d selected_columns))) ;;
      let csv := Plain (getitems d selected_columns) in
      let timestamp := now_stamp env in
      emit (st_download_button csv ("export_" ++ timestamp ++ ".csv"))
  | [] => emit (st_warning "Please select at least one column to display")
  end.

(** Lines 228-274: the price chart of a yFinance frame with a [Close]
    column, and the volume chart under it. *)
Definition price_trace (d : DataFrame) : M Trace :=
  if forallb (fun col => has_column col d) ["Open"; "High"; "Low"; "Close"] then
    x <- call (getitem d "Date") ;;
    o <- call (getitem d "Open") ;;
    h <- call (getitem d "High") ;;
    l <- call (getitem d "Low") ;;
    c <- call (getitem d "Close") ;;
    ret (Candlestick x o h l c "OHLC")
  else
    x <- call (getitem d "Date") ;;
    y <- call (getitem d "Close") ;;
    ret (Scatter x y "lines" "Close Price").

Definition price_chart (d : DataFrame) : M unit :=
  emit (st_markdown "#### Stock Price Over Time") ;;
  trace <- price_trace d ;;
  emit (st_plotly_chart (GoFigure [trace] (Some "Date") (Some "Price (USD)"))) ;;
  if has_column "Volume" d then
    emit (st_markdown "#### Trading Volume") ;;
    fig_vol <- call (px px_bar d (Some (LStr "Date")) (Some (LStr "Volume")) None) ;;
    emit (st_plotly_chart fig_vol)
  else ret tt.

(** Lines 278-344: the generic chart builder. *)
Definition chart_types : list Label :=
  [LStr "Line"; LStr "Bar"; LStr "Scatter"; LStr "Area"].

Definition y_column (w : Widgets) (d : DataFrame) : option Label :=
  selectbox (numeric_cols d) (y_axis w).

Definition x_options (d : DataFrame) : list Label :=
  (datetime_cols d ++ numeric_cols d ++ object_cols d)%list.

Definition x_column (w : Widgets) (d : DataFrame) : option Label :=
  selectbox (x_options d) (x_axis w).

Definition color_options (d : DataFrame) : list Label :=
  LStr "None" :: object_cols d.

Definition px_kind_of (chart : option Label) : PxKind :=
  match chart with
  | Some (LStr "Line") => px_line
  | Some (LStr "Bar") => px_bar
  | Some (LStr "Scatter") => px_scatter
  | _ => px_area
  end.

Definition generic_chart (w : Widgets) (d : DataFrame) : M unit :=
  match numeric_cols d with
  | _ :: _ =>
      let chart := selectbox chart_types (chart_type w) in
      let y := y_column w d in
      let x := x_column w d in
      let colour := selectbox (color_options d) (color_by w) in
      try_except
        (fig <- call (px (px_kind_of chart) d x y
                         (match colour with
                          | Some (LStr "None") => None
                          | _ => colour
                          end)) ;;
         emit (st_plotly_chart fig))
        (fun e => Some (emit (st_error ("Error creating chart: " ++ exn_str e))))
  | [] => emit (st_info "No numeric columns available for visualization")
  end.

Definition charts_tab (w : Widgets) (d : DataFrame) : M unit :=
  s <- get ;;
  if opt_eqb (data_source s) "yFinance" && has_column "Close" d
  then price_chart d
  else generic_chart w d.

(** Lines 346-407: the statistics tab. *)
Definition statistics_tab (w : Widgets) (d : DataFrame) : M unit :=
  match numeric_cols d with
  | _ :: _ =>
      emit (st_markdown "#### Descriptive Statistics") ;;
      let summary_df := describe (getitems d (numeric_cols d)) in
      emit (st_dataframe summary_df) ;;
      emit (st_markdown "#### Distributions") ;;
      let selected_col := selectbox (numeric_cols d) (dist_column w) in
      fig_hist <- call (px px_histogram d selected_col None None) ;;
      emit (st_plotly_chart fig_hist) ;;
      fig_box <- call (px px_box d None selected_col None) ;;
      emit (st_plotly_chart fig_box) ;;
      if (1 <? length (numeric_cols d))%nat then
        emit (st_markdown "#### Correlation Matrix") ;;
        let corr_matrix := corr (getitems d (numeric_cols d)) in
        emit (st_plotly_chart (PxImshow corr_matrix))
      else ret tt
  | [] => emit (st_info "No numeric columns available for statistics")
  end.

(** The welcome screen; the two texts are cut after their headings. *)
Definition welcome : M unit :=
  emit (st_markdown "## Welcome to the Financial Dashboard!") ;;
  emit (st_markdown "### Example Queries").

Definition main_content (env : Env) (w : Widgets) : M unit :=
  s <- get ;;
  match df s with
  | Some d =>
      valid <- validate_dataframe (df s) ;;
      if valid then
        source_info d ;;
        data_tab env w d ;;
        charts_tab w d ;;
        statistics_tab w d
      else welcome
  | None => welcome
  end.

(** One run of the script. *)
Definition app (env : Env) (w : Widgets) : M unit :=
  sidebar env w ;;
  main_content env w.

(** The session after a sequence of runs; the session state survives a run
    that ends in an uncaught exception. *)
Fixpoint runs (steps : list (Env * Widgets)) (s : Session) : Session :=
  match steps with
  | [] => s
  | (env, w) :: steps' => runs steps' (state (app env w s))
  end.


(* ================================================================== *)
(** * The pandas CSV reader and writer *)

(** Modelled from the pandas documentation of [read_csv] and
    [DataFrame.to_csv] with the arguments the script passes (none to the
    reader, [index=False] to the writer): comma delimiter, line feed as line
    terminator, first line as header, blank lines skipped, an empty field as
    the missing value, a column of integer fields as [int64], a column of
    empty fields as [float64], a column with text as [object].

    The model covers a fragment of CSV and answers [None] outside it rather
    than guess: quoted fields, carriage returns, floating-point and boolean
    fields and the other spellings of the missing value, integers outside
    [int64], integer columns with missing values (which pandas reads as
    floats), empty or repeated header names, and rows whose number of fields
    differs from the header's. *)


(** [s.split(sep)] for a one-character separator. *)
Fixpoint split (sep : ascii) (s : string) : list string :=
  match s with
  | EmptyString => [EmptyString]
  | String c s' =>
      if Ascii.eqb c sep then EmptyString :: split sep s'
      else match split sep s' with
           | f :: fs => String c f :: fs
           | [] => [String c EmptyString]
           end
  end.





Definition nonblank (l : string) : bool := negb (l =? "").



Definition parse_int (f : string) : option Z :=
  option_map Z.of_int (NilZero.int_of_string f).

Definition is_letter (c : ascii) : bool :=
  let n := nat_of_ascii c in
  (((65 <=? n) && (n <=? 90)) || ((97 <=? n) && (n <=? 122)))%nat.

(** Text that pandas leaves a string: it starts with a letter and is, in any
    case of its letters, none of the words read as a number, a boolean or a
    missing value. *)
Definition plain_text (f : string) : bool :=
  match f with
  | EmptyString => false
  | String c _ =>
      is_letter c &&
      negb (existsb (String.eqb (upper f))
              ["INF"; "INFINITY"; "NAN"; "TRUE"; "FALSE";
               "NA"; "N/A"; "NULL"; "NONE"])
  end.

Inductive FieldClass : Type :=
| FEmpty
| FInt (z : Z)
| FText
| FOther.

Definition classify_field (f : string) : FieldClass :=
  if f =? "" then FEmpty
  else match parse_int f with
       | Some z =>
           if ((INT64_MIN <=? z) && (z <=? INT64_MAX))%Z then FInt z else FOther
       | None => if plain_text f then FText else FOther
       end.













(* ================================================================== *)
(** * The specification's wording, for comparison *)

(** The default x column in the specification's words: the first Temporal
    column if one exists, else the first Numeric column other than the y
    column. *)
Definition spec_default_x (d : DataFrame) (y : option Label) : option Label :=
  match datetime_cols d with
  | t :: _ => Some t
  | [] =>
      hd_error
        (filter (fun l => match y with
                          | Some y' => negb (Label_eqb l y')
                          | None => true
                          end)
                (numeric_cols d))
  end.

(** All four price columns are present. *)
Definition ohlc_present (d : DataFrame) : Prop :=
  has_column "Open" d = true /\ has_column "High" d = true /\
  has_column "Low" d = true /\ has_column "Close" d = true.

(** What a price trace is, and the column on its x axis. *)
Definition is_candlestick (t : Trace) : bool :=
  match t with
  | Candlestick _ _ _ _ _ _ => true
  | Scatter _ _ _ _ => false
  end.

Definition trace_x (t : Trace) : Series :=
  match t with
  | Candlestick x _ _ _ _ _ => x
  | Scatter x _ _ _ => x
  end.

(** The events of the volume chart, lines 263-274. *)
Definition volume_chart (d : DataFrame) : list Event :=
  if has_column "Volume" d then
    [ st_markdown "#### Trading Volume";
      st_plotly_chart
        (PxFigure px_bar d (Some (LStr "Date")) (Some (LStr "Volume")) None) ]
  else [].


(** The top-level JSON shapes the specification names. *)
Definition is_list (j : json) : bool :=
  match j with
  | JArr _ => true
  | _ => false
  end.

Definition is_object (j : json) : bool :=
  match j with
  | JObj _ => true
  | _ => false
  end.

(** A list of objects, in the specification's words: a list all of whose
    elements are objects. *)
Definition is_list_of_objects (j : json) : bool :=
  match j with
  | JArr items => match all_dicts items with Some _ => true | None => false end
  | _ => false
  end.

(** ** Ingestion as the specification describes it *)

(** The failures of an ingestion attempt that the specification names. *)
Inductive IngestError : Type :=
| FetchError
| TimeoutError
| HttpError
| ParseError
| UnsupportedShapeError.

(** What the selected adapter makes of a run: nothing was asked of it, it
    failed, or it produced a Dataset of some source kind. *)
Inductive Attempt : Type :=
| NoAttempt
| Failed (e : IngestError)
| Produced (kind : string) (d : DataFrame).

(** The TimeSeries adapter: any provider failure is a [FetchError]. *)
Definition timeseries_adapter (env : Env) (symbol period : string)
  : IngestError + DataFrame :=
  match yf_history env symbol period with
  | inl _ => inl FetchError
  | inr h =>
      match reset_index h with
      | inl _ => inl FetchError
      | inr d => inr d
      end
  end.

(** The JSON adapter: a timeout is a [TimeoutError], any other transport
    failure or an error status an [HttpError], a body that is not JSON a
    [ParseError], and a value no frame can be built from an
    [UnsupportedShapeError]. *)
Definition json_api_adapter (env : Env) (url : string) : IngestError + DataFrame :=
  match requests_get env url with
  | inl e => if is_Timeout e then inl TimeoutError else inl HttpError
  | inr response =>
      match raise_for_status response with
      | inl _ => inl HttpError
      | inr _ =>
          match body_json response with
          | None => inl ParseError
          | Some (JArr items) =>
              match pd_DataFrame items with
              | inl _ => inl UnsupportedShapeError
              | inr d => inr d
              end
          | Some (JObj f) =>
              match pd_DataFrame [JObj f] with
              | inl _ => inl UnsupportedShapeError
              | inr d => inr d
              end
          | Some _ => inl UnsupportedShapeError
          end
      end
  end.

(** The CSV adapter: any parser failure is a [ParseError]. *)
Definition csv_adapter (env : Env) (f : UploadedFile) : IngestError + DataFrame :=
  match read_csv env f with
  | inl _ => inl ParseError
  | inr d => inr d
  end.

Definition as_attempt (kind : string) (r : IngestError + DataFrame) : Attempt :=
  match r with
  | inl e => Failed e
  | inr d => Produced kind d
  end.

(** The attempt of a run, from the selected source and the widgets. *)
Definition attempt (env : Env) (w : Widgets) : Attempt :=
  if data_source_selector w =? "yFinance" then
    if fetch_stock_button w
    then as_attempt "yFinance"
           (timeseries_adapter env (upper (ticker_input w)) (period_select w))
    else NoAttempt
  else if data_source_selector w =? "API Link" then
    if fetch_api_button w && negb (api_url_input w =? "")
    then as_attempt "API" (json_api_adapter env (api_url_input w))
    else NoAttempt
  else
    match csv_uploader w with
    | Some f => as_attempt "CSV" (csv_adapter env f)
    | None => NoAttempt
    end.

(** The load a run performs, if any: a produced Dataset is stored unless it
    is an empty yFinance or API result. *)
Definition load_of (a : Attempt) : option (string * DataFrame) :=
  match a with
  | Produced kind d =>
      if (kind =? "CSV") || negb (empty d) then Some (kind, d) else None
  | _ => None
  end.

(** The session a load leaves: Dataset and source kind are replaced
    together, and a yFinance load also records symbol and period. *)
Definition session_after (env : Env) (w : Widgets) (s : Session) : Session :=
  match load_of (attempt env w) with
  | Some (kind, d) =>
      mkSession (Some d) (Some kind)
        (if kind =? "yFinance"
         then [("ticker", upper (ticker_input w)); ("period", period_select w)]
         else ticker_data s)
  | None => s
  end.

(** The last load of a sequence of runs. *)
Definition last_load (steps : list (Env * Widgets)) (before : option (string * DataFrame))
  : option (string * DataFrame) :=
  fold_left
    (fun acc step =>
       match load_of (attempt (fst step) (snd step)) with
       | Some kd => Some kd
       | None => acc
       end)
    steps before.

(** The session records the given load, or none. *)
Definition records_load (s : Session) (l : option (string * DataFrame)) : Prop :=
  match l with
  | Some (kind, d) => df s = Some d /\ data_source s = Some kind
  | None => df s = None /\ data_source s = None
  end.

(** A dataset the validator rejects. *)
Definition invalid (d : option DataFrame) : bool :=
  match d with
  | None => true
  | Some d' => empty d'
  end.

(** A computation that leaves the session as it found it. *)
Definition keeps_state {A} (m : M A) : Prop := forall s, state (m s) = s.

(** ** The parts of [fetch_api_data] *)

(** The body of the [try] statement of [fetch_api_data] (lines 39-52). *)
Definition api_try (env : Env) (url : string) : M (option DataFrame) :=
  response <- call (requests_get env url) ;;
  call (raise_for_status response) ;;
  data <- call (response_json response) ;;
  match data with
  | JArr items =>
      d <- call (pd_DataFrame items) ;;
      ret (Some d)
  | JObj _ =>
      d <- call (pd_DataFrame [data]) ;;
      ret (Some d)
  | _ =>
      emit (st_error "API response format not supported") ;;
      ret None
  end.

(** Its two [except] clauses (lines 53-58). *)
Definition api_except (e : Exn) : option (M (option DataFrame)) :=
  if is_Timeout e then
    Some (emit (st_error "Request timed out. Please try again.") ;; ret None)
  else if is_RequestException e then
    Some (emit (st_error ("API error: " ++ exn_str e)) ;; ret None)
  else None.

(** ** Invariants of the session *)

(** A yFinance session carries the ticker, in upper case, and the period. *)
Definition ticker_recorded (s : Session) : Prop :=
  data_source s = Some "yFinance" ->
  exists t p, ticker_data s = [("ticker", t); ("period", p)] /\ upper t = t.

(** Only a CSV load can leave an empty Dataset in the session. *)
Definition empty_only_from_csv (s : Session) : Prop :=
  forall d, df s = Some d -> empty d = true -> data_source s = Some "CSV".

(** Every event a computation logs satisfies [P]. *)
Definition all_events {A} (P : Event -> Prop) (m : M A) : Prop :=
  forall s ev, In ev (log (m s)) -> P ev.

(** An event that is neither the heading of the welcome screen nor the
    warning of the validator. *)
Definition not_screen (ev : Event) : Prop :=
  ev <> st_markdown "## Welcome to the Financial Dashboard!" /\
  ev <> st_warning "No data available to display.".

(** ** Reading back what was written *)




(* ================================================================== *)
(** * Concrete inputs *)

Definition frame_abc : DataFrame :=
  mkDataFrame 2
    [ mkSeries (LStr "when") datetime64_ns_tz [Timestamp 0; Timestamp 86400000000000];
      mkSeries (LStr "price") float64 [Val (JFloat 15 (-1)); NaN];
      mkSeries (LStr "venue") object [Val (JStr "x"); Val (JStr "y")];
      mkSeries (LStr "listed") bool_ [Val (JBool true); Val (JBool false)] ].


(** Widgets nobody has touched, with the CSV source selected and no file. *)
Definition untouched : Widgets :=
  mkWidgets "CSV Upload" "AAPL" "1mo" false "" false None
            None None None None None None.

Definition frame_two_numeric : DataFrame :=
  mkDataFrame 2
    [ mkSeries (LStr "a") int64 [Val (JInt 1); Val (JInt 2)];
      mkSeries (LStr "b") int64 [Val (JInt 3); Val (JInt 4)] ].

Definition frame_text_only : DataFrame :=
  mkDataFrame 2
    [ mkSeries (LStr "city") object [Val (JStr "Oslo"); Val (JStr "Lima")] ].

(** A two-day price history as the provider returns it, and the frame the
    fetch makes of it. *)
Definition two_days : list Cell := [Timestamp 0; Timestamp 86400000000000].

Definition prices (l : string) (a b : Z) : Series :=
  mkSeries (LStr l) float64 [Val (JFloat a 0); Val (JFloat b 0)].

Definition history_ohlcv : History :=
  mkHistory (Some "Date") datetime64_ns_tz two_days
    [ prices "Open" 10 11; prices "High" 12 13; prices "Low" 9 10;
      prices "Close" 11 12;
      mkSeries (LStr "Volume") int64 [Val (JInt 100); Val (JInt 200)] ].

Definition frame_ohlcv : DataFrame :=
  mkDataFrame 2
    (mkSeries (LStr "Date") datetime64_ns_tz two_days :: history_columns history_ohlcv).

(** The same frame without its [High] column. *)
Definition frame_no_high : DataFrame :=
  mkDataFrame 2
    [ mkSeries (LStr "Date") datetime64_ns_tz two_days;
      prices "Open" 10 11; prices "Low" 9 10; prices "Close" 11 12 ].

Definition session_yfinance (d : DataFrame) : Session :=
  mkSession (Some d) (Some "yFinance") [("ticker", "AAPL"); ("period", "1mo")].

(** An endpoint that answers every URL with status 200 and the given body. *)
Definition env_json (data : json) : Env :=
  mkEnv (fun _ _ => inl (OtherException "no provider"))
        (fun _ => inr (mkResponse 200 (Some data)))
        (fun _ => inl (OtherException "no parser"))
        "20240101_000000".

Definition json_two_records : json :=
  JArr [ JObj [("a", JInt 1); ("b", JStr "x")]; JObj [("a", JInt 2)] ].

Definition json_one_record : json := JObj [("a", JInt 1)].

Definition json_scalars : json := JArr [JInt 1; JInt 2; JInt 3].

(** A provider that answers every request with the given history. *)
Definition env_history (h : History) : Env :=
  mkEnv (fun _ _ => inr h)
        (fun _ => inl (RequestException "no endpoint"))
        (fun _ => inl (OtherException "no parser"))
        "20240101_000000".

(** The history of an unknown symbol: the usual columns and no rows. *)
Definition history_empty : History :=
  mkHistory (Some "Date") datetime64_ns_tz []
    [ mkSeries (LStr "Open") float64 []; mkSeries (LStr "High") float64 [];
      mkSeries (LStr "Low") float64 []; mkSeries (LStr "Close") float64 [];
      mkSeries (LStr "Volume") int64 [] ].

(** An endpoint that times out. *)
Definition env_timeout : Env :=
  mkEnv (fun _ _ => inl (OtherException "no provider"))
        (fun _ => inl (Timeout "read timed out"))
        (fun _ => inl (OtherException "no parser"))
        "20240101_000000".

(** A CSV parser that returns the given frame. *)
Definition env_csv (d : DataFrame) : Env :=
  mkEnv (fun _ _ => inl (OtherException "no provider"))
        (fun _ => inl (RequestException "no endpoint"))
        (fun _ => inr d)
        "20240101_000000".

(** What [pd.read_csv] makes of a file that holds a header line only. *)
Definition frame_header_only : DataFrame :=
  mkDataFrame 0 [ mkSeries (LStr "a") object []; mkSeries (LStr "b") object [] ].

(** The user presses "Fetch Data" for a stock symbol. *)
Definition w_stock : Widgets :=
  mkWidgets "yFinance" "aapl" "1mo" true "" false None
            None None None None None None.

(** The user presses "Fetch Data" for an API URL. *)
Definition w_api : Widgets :=
  mkWidgets "API Link" "AAPL" "1mo" false "https://api.example.com/data" true None
            None None None None None None.

(** The user has uploaded a file. *)
Definition w_csv : Widgets :=
  mkWidgets "CSV Upload" "AAPL" "1mo" false "" false
            (Some (mkUploadedFile "data.csv" "a,b"))
            None None None None None None.

(** The frame of [json_two_records]. *)
Definition frame_two_records : DataFrame :=
  mkDataFrame 2
    [ mkSeries (LStr "a") int64 [Val (JInt 1); Val (JInt 2)];
      mkSeries (LStr "b") object [Val (JStr "x"); NaN] ].

(** A stock fetch, then an API fetch that times out, then one that answers. *)
Definition three_runs : list (Env * Widgets) :=
  [ (env_history history_ohlcv, w_stock);
    (env_timeout, w_api);
    (env_json json_two_records, w_api) ].

(** An endpoint that answers with the given status and a JSON body. *)
Definition env_status (code : nat) (data : json) : Env :=
  mkEnv (fun _ _ => inl (OtherException "no provider"))
        (fun _ => inr (mkResponse code (Some data)))
        (fun _ => inl (OtherException "no parser"))
        "20240101_000000".

(** A single stock fetch. *)
Definition one_stock_run : list (Env * Widgets) :=
  [ (env_history history_ohlcv, w_stock) ].

(** A CSV parser that fails. *)
Definition env_csv_error : Env :=
  mkEnv (fun _ _ => inl (OtherException "no provider"))
        (fun _ => inl (RequestException "no endpoint"))
        (fun _ => inl (OtherException "No columns to parse from file"))
        "20240101_000000".

(** A frame with twelve integer columns c0 .. c11 and one row. *)
Definition frame_twelve : DataFrame :=
  mkDataFrame 1
    (map (fun i => mkSeries (LStr ("c" ++ str_of_nat i)) int64 [Val (JInt (Z.of_nat i))])
         (seq 0 12)).

(** A frame with an object column that is labelled like the sentinel of the
    colour select box. *)
Definition frame_none_label : DataFrame :=
  mkDataFrame 2
    [ mkSeries (LStr "n") int64 [Val (JInt 1); Val (JInt 2)];
      mkSeries (LStr "None") object [Val (JStr "p"); Val (JStr "q")] ].

(** The user picks the colour option that reads [None]. *)
Definition w_colour_none : Widgets :=
  mkWidgets "CSV Upload" "AAPL" "1mo" false "" false None
            None None None None (Some (LStr "None")) None.

(** A price frame whose time column is not labelled [Date]. *)
Definition frame_datetime : DataFrame :=
  mkDataFrame 2
    [ mkSeries (LStr "Datetime") datetime64_ns_tz two_days; prices "Close" 11 12 ].

(** A list whose first element is an object and whose second is not. *)
Definition json_mixed : json := JArr [ JObj [("a", JInt 1)]; JInt 5 ].










(* ================================================================== *)
(** * Lemmas on frames and selections *)

Lemma in_columns (d : DataFrame) (l : Label) :
  In l (columns d) <-> exists c, In c (series d) /\ name c = l.
Proof.
  unfold columns. rewrite in_map_iff.
  split; intros [c [H1 H2]]; exists c; auto.
Qed.

Lemma in_selected (sel : Selector) (d : DataFrame) (l : Label) :
  In l (columns (select_dtypes [sel] d)) <->
  exists c, In c (series d) /\ name c = l /\ dtype_matches sel (dtype c) = true.
Proof.
  rewrite in_columns. simpl.
  split.
  - intros [c [Hc Hn]]. apply filter_In in Hc. destruct Hc as [Hc Hm].
    rewrite orb_false_r in Hm. eauto.
  - intros [c [Hc [Hn Hm]]]. exists c. split; [|assumption].
    apply filter_In. rewrite orb_false_r. auto.
Qed.

Lemma selected_incl (sel : Selector) (d : DataFrame) :
  incl (columns (select_dtypes [sel] d)) (columns d).
Proof.
  intros l H. apply in_selected in H. destruct H as [c [Hc [Hn _]]].
  apply in_columns. eauto.
Qed.

Lemma numeric_cols_incl (d : DataFrame) : incl (numeric_cols d) (columns d).
Proof. apply selected_incl. Qed.

(** With unique labels a label names one column. *)
Lemma unique_label (cs : list Series) (a b : Series) :
  NoDup (map name cs) -> In a cs -> In b cs -> name a = name b -> a = b.
Proof.
  induction cs as [|c cs IH]; simpl; [tauto|].
  intros Hnd Ha Hb Hab. inversion Hnd as [|x xs Hnotin Hnd']; subst.
  destruct Ha as [Ha|Ha], Hb as [Hb|Hb]; subst; auto.
  - exfalso. apply Hnotin. rewrite Hab. now apply in_map.
  - exfalso. apply Hnotin. rewrite <- Hab. now apply in_map.
Qed.

Lemma find_series_In (l : Label) (cs : list Series) :
  In l (map name cs) -> exists c, find_series l cs = Some c /\ In c cs /\ name c = l.
Proof.
  induction cs as [|c cs IH]; simpl; [tauto|].
  intros H. destruct (Label_eqb_spec l (name c)) as [E|N].
  - exists c. auto.
  - destruct H as [H|H]; [congruence|].
    destruct (IH H) as [c' [H1 [H2 H3]]]. exists c'. auto.
Qed.

Lemma find_series_None (l : Label) (cs : list Series) :
  ~ In l (map name cs) -> find_series l cs = None.
Proof.
  induction cs as [|c cs IH]; simpl; [reflexivity|].
  intros H. destruct (Label_eqb_spec l (name c)) as [E|N].
  - exfalso. apply H. left. congruence.
  - apply IH. tauto.
Qed.

(** [df[labels]] has exactly the listed labels when they all name columns. *)
Lemma columns_getitems (d : DataFrame) (ls : list Label) :
  incl ls (columns d) -> columns (getitems d ls) = ls.
Proof.
  unfold columns, getitems. simpl.
  induction ls as [|l ls IH]; simpl; intros H; [reflexivity|].
  destruct (find_series_In l (series d)) as [c [Hf [_ Hn]]].
  - apply H. now left.
  - rewrite Hf. simpl. rewrite Hn. f_equal. apply IH.
    intros x Hx. apply H. now right.
Qed.

Lemma selectbox_mem (options : list Label) (chosen : option Label) (l : Label) :
  selectbox options chosen = Some l -> In l options.
Proof.
  unfold selectbox.
  destruct chosen as [c|].
  - destruct (mem c options) eqn:E.
    + intros H. inversion H; subst. now apply mem_In.
    + destruct options; simpl; [discriminate|]. intros H. inversion H. now left.
  - destruct options; simpl; [discriminate|]. intros H. inversion H. now left.
Qed.

Lemma selectbox_default (options : list Label) :
  selectbox options None = hd_error options.
Proof. reflexivity. Qed.

Lemma has_column_In (l : string) (d : DataFrame) :
  has_column l d = true <-> In (LStr l) (columns d).
Proof. apply mem_In. Qed.

Lemma getitem_present (l : string) (d : DataFrame) :
  has_column l d = true ->
  exists c, getitem d l = inr c /\ In c (series d) /\ name c = LStr l.
Proof.
  intros H. apply has_column_In in H.
  destruct (find_series_In _ _ H) as [c [Hf [Hin Hn]]].
  exists c. unfold getitem. rewrite Hf. auto.
Qed.

Lemma getitem_absent (l : string) (d : DataFrame) :
  has_column l d = false -> getitem d l = inl (KeyError l).
Proof.
  intros H. unfold getitem. rewrite find_series_None; [reflexivity|].
  intros Hin. apply has_column_In in Hin. congruence.
Qed.

Lemma pick_incl (cs : list Series) (ls : list Label) : incl (pick cs ls) cs.
Proof.
  induction ls as [|l ls IH]; simpl; [intros c []|].
  destruct (find_series l cs) as [c|] eqn:E; [|assumption].
  intros c' [H|H]; [|auto]. subst c'.
  clear IH. induction cs as [|c0 cs IH]; simpl in E; [discriminate|].
  destruct (Label_eqb l (name c0)).
  - inversion E. now left.
  - right. auto.
Qed.

Lemma find_series_unique (cs : list Series) (c : Series) :
  NoDup (map name cs) -> In c cs -> find_series (name c) cs = Some c.
Proof.
  intros Hnd Hc.
  destruct (find_series_In (name c) cs) as [c' [Hf [Hin Hn]]].
  - now apply in_map.
  - rewrite Hf. f_equal. apply (unique_label cs); auto.
Qed.

Lemma pick_all (cs : list Series) :
  NoDup (map name cs) -> forall l, incl l cs -> pick cs (map name l) = l.
Proof.
  intros Hnd l. induction l as [|c l IH]; simpl; intros Hl; [reflexivity|].
  rewrite find_series_unique; auto.
  - f_equal. apply IH. intros x Hx. apply Hl. now right.
  - apply Hl. now left.
Qed.

(** Selecting every column gives the frame back. *)
Lemma getitems_all (d : DataFrame) :
  NoDup (columns d) -> getitems d (columns d) = d.
Proof.
  intros Hnd. unfold getitems, columns.
  rewrite pick_all; [now destruct d | assumption | apply incl_refl].
Qed.

(* ================================================================== *)
(** * Column classification *)

Section Classification.

Variable d : DataFrame.
Hypothesis unique_labels : NoDup (columns d).

Lemma selected_iff (sel : Selector) (c : Series) :
  In c (series d) ->
  (In (name c) (columns (select_dtypes [sel] d)) <->
   dtype_matches sel (dtype c) = true).
Proof.
  intros Hc. rewrite in_selected. split.
  - intros [c' [Hc' [Hn Hm]]].
    assert (c' = c) by (apply (unique_label (series d)); auto).
    now subst.
  - intros Hm. exists c. auto.
Qed.

Lemma has_tag_iff (c : Series) (t : Tag) :
  In c (series d) -> (has_tag d (name c) t <-> tag_of_dtype (dtype c) = t).
Proof.
  intros Hc.
  assert (Hcol : In (name c) (columns d)) by (apply in_columns; eauto).
  pose proof (selected_iff sel_number c Hc) as Hn.
  pose proof (selected_iff sel_datetime64 c Hc) as Ht.
  pose proof (selected_iff sel_object c Hc) as Ho.
  unfold has_tag, numeric_cols, datetime_cols, object_cols, tag_of_dtype.
  destruct t; rewrite ?Hn, ?Ht, ?Ho;
    destruct (dtype c); simpl; intuition congruence.
Qed.

(** C4. Classification is total and deterministic: in a frame with unique
    column labels every column carries exactly one of the tags Numeric,
    Temporal, Categorical, Unsupported; [classify] computes that tag, lists
    no other tag for the column, and depends on nothing but the labels and
    dtypes of the frame. *)
Theorem classification_total_deterministic (l : Label) :
  In l (columns d) ->
  exists t,
    has_tag d l t /\
    (forall t', has_tag d l t' -> t' = t) /\
    In (l, t) (classify d) /\
    (forall t', In (l, t') (classify d) -> t' = t) /\
    (forall d', map (fun c => (name c, dtype c)) (series d')
                = map (fun c => (name c, dtype c)) (series d) ->
                classify d' = classify d).
Proof.
  intros Hl. apply in_columns in Hl. destruct Hl as [c [Hc Hn]]. subst l.
  exists (tag_of_dtype (dtype c)). repeat split.
  - now apply has_tag_iff.
  - intros t' H. apply has_tag_iff in H; auto.
  - unfold classify. apply in_map_iff. exists c. auto.
  - intros t' H. unfold classify in H. apply in_map_iff in H.
    destruct H as [c' [E Hc']]. inversion E as [[En Et]].
    assert (c' = c) by (apply (unique_label (series d)); auto).
    now subst.
  - intros d' E. unfold classify.
    transitivity
      (map (fun p : Label * Dtype => (fst p, tag_of_dtype (snd p)))
           (map (fun c0 => (name c0, dtype c0)) (series d'))).
    + rewrite map_map. reflexivity.
    + rewrite E, map_map. reflexivity.
Qed.

End Classification.

Lemma frame_abc_unique : NoDup (columns frame_abc).
Proof.
  unfold columns; simpl.
  repeat constructor; simpl; intuition discriminate.
Qed.

Lemma classification_total_deterministic_witness :
  exists t,
    has_tag frame_abc (LStr "price") t /\
    (forall t', has_tag frame_abc (LStr "price") t' -> t' = t) /\
    In (LStr "price", t) (classify frame_abc) /\
    (forall t', In (LStr "price", t') (classify frame_abc) -> t' = t) /\
    (forall d', map (fun c => (name c, dtype c)) (series d')
                = map (fun c => (name c, dtype c)) (series frame_abc) ->
                classify d' = classify frame_abc).
Proof.
  apply (classification_total_deterministic frame_abc frame_abc_unique).
  unfold columns; simpl. right. left. reflexivity.
Defined.

(* ================================================================== *)
(** * Running the monad *)

Lemma bind_inr {A B} (m : M A) (f : A -> M B) (s s1 : Session)
      (l : list Event) (a : A) :
  m s = mkRun l s1 (inr a) ->
  bind m f s =
    mkRun (l ++ log (f a s1))%list (state (f a s1)) (result (f a s1)).
Proof.
  intros H. unfold bind. rewrite H. now destruct (f a s1).
Qed.

Lemma bind_inl {A B} (m : M A) (f : A -> M B) (s s1 : Session)
      (l : list Event) (e : Exn) :
  m s = mkRun l s1 (inl e) -> bind m f s = mkRun l s1 (inl e).
Proof.
  intros H. unfold bind. now rewrite H.
Qed.

Ltac mrun :=
  unfold bind, emit, ret, call, raise, get, try_except,
         set_df, set_data_source, set_ticker_data in *;
  simpl in *.

(* ================================================================== *)
(** * The generic chart builder *)

Lemma x_options_incl (d : DataFrame) : incl (x_options d) (columns d).
Proof.
  unfold x_options, datetime_cols, numeric_cols, object_cols.
  intros l H. apply in_app_or in H. destruct H as [H|H].
  - eapply selected_incl; eauto.
  - apply in_app_or in H. destruct H as [H|H]; eapply selected_incl; eauto.
Qed.

Lemma px_known (kind : PxKind) (d : DataFrame) (x y : Label) :
  In x (columns d) -> In y (columns d) ->
  px kind d (Some x) (Some y) None = inr (PxFigure kind d (Some x) (Some y) None).
Proof.
  intros Hx Hy. unfold px.
  apply mem_In in Hx. apply mem_In in Hy. now rewrite Hx, Hy.
Qed.

(** With nothing chosen the x column is the head of [x_options]. *)
Lemma default_x_head (w : Widgets) (d : DataFrame) :
  x_axis w = None ->
  x_column w d =
  match datetime_cols d with
  | t :: _ => Some t
  | [] => match numeric_cols d with
          | n :: _ => Some n
          | [] => hd_error (object_cols d)
          end
  end.
Proof.
  intros Hx. unfold x_column, x_options. rewrite Hx, selectbox_default.
  destruct (datetime_cols d); [|reflexivity].
  destruct (numeric_cols d); reflexivity.
Qed.

(** C5 (amended). In the generic chart builder, with nothing chosen yet, the
    default y column is the first Numeric column; the default x column is the
    first Temporal column if one exists, and otherwise the first Numeric
    column, which is the y column itself.  The chart drawn by default is the
    line chart of these two columns without colouring. *)
Theorem default_columns (w : Widgets) (d : DataFrame) (s : Session) :
  chart_type w = None -> y_axis w = None -> x_axis w = None -> color_by w = None ->
  numeric_cols d <> [] ->
  y_column w d = hd_error (numeric_cols d) /\
  (forall t ts, datetime_cols d = t :: ts -> x_column w d = Some t) /\
  (datetime_cols d = [] -> x_column w d = y_column w d) /\
  generic_chart w d s =
    mkRun [st_plotly_chart (PxFigure px_line d (x_column w d) (y_column w d) None)]
          s (inr tt).
Proof.
  intros Hc Hy Hx Hcol Hnum.
  assert (Ey : y_column w d = hd_error (numeric_cols d)).
  { unfold y_column. now rewrite Hy. }
  pose proof (default_x_head w d Hx) as Ex.
  repeat split.
  - exact Ey.
  - intros t ts Ht. now rewrite Ex, Ht.
  - intros Ht. rewrite Ex, Ey, Ht. destruct (numeric_cols d); [congruence|reflexivity].
  - unfold generic_chart.
    destruct (numeric_cols d) as [|n ns] eqn:En; [congruence|].
    rewrite Hc, Hcol. simpl selectbox.
    assert (Hyin : In n (columns d)).
    { apply numeric_cols_incl. rewrite En. now left. }
    destruct (x_column w d) as [x|] eqn:Exc.
    + assert (Hxin : In x (columns d)).
      { apply x_options_incl. eapply selectbox_mem. exact Exc. }
      rewrite Ey. simpl hd_error.
      change (px_kind_of (Some (LStr "Line"))) with px_line.
      unfold try_except, bind, call.
      rewrite (px_known px_line d x n Hxin Hyin). reflexivity.
    + exfalso. rewrite Ex in Exc.
      destruct (datetime_cols d); discriminate.
Qed.

Lemma default_columns_witness :
  y_column untouched frame_two_numeric = Some (LStr "a") /\
  x_column untouched frame_two_numeric = Some (LStr "a") /\
  generic_chart untouched frame_two_numeric initial_session =
    mkRun [st_plotly_chart
             (PxFigure px_line frame_two_numeric (Some (LStr "a")) (Some (LStr "a")) None)]
          initial_session (inr tt).
Proof.
  destruct (default_columns untouched frame_two_numeric initial_session
              eq_refl eq_refl eq_refl eq_refl) as [Hy [_ [Hx Hg]]].
  - discriminate.
  - split; [exact Hy|]. split; [exact (Hx eq_refl)|]. exact Hg.
Defined.

(** C5, as the specification words it, fails: with two Numeric columns and no
    Temporal column the default x column is the first Numeric column, the
    same as the default y column, not the second one. *)
Lemma default_x_counterexample :
  y_axis untouched = None /\ x_axis untouched = None /\
  y_column untouched frame_two_numeric = Some (LStr "a") /\
  spec_default_x frame_two_numeric (y_column untouched frame_two_numeric)
    = Some (LStr "b") /\
  x_column untouched frame_two_numeric = Some (LStr "a") /\
  x_column untouched frame_two_numeric
    <> spec_default_x frame_two_numeric (y_column untouched frame_two_numeric).
Proof.
  repeat split; discriminate.
Qed.

(** C6. In the generic chart branch the "no numeric columns" notice is
    reported if and only if the frame has no Numeric column; it is the only
    thing the branch then does, and the branch never raises nor touches the
    session. *)
Theorem no_numeric_columns_notice (w : Widgets) (d : DataFrame) (s : Session) :
  opt_eqb (data_source s) "yFinance" && has_column "Close" d = false ->
  let r := charts_tab w d s in
  (In (st_info "No numeric columns available for visualization") (log r)
   <-> numeric_cols d = []) /\
  (numeric_cols d = [] ->
   log r = [st_info "No numeric columns available for visualization"]) /\
  result r = inr tt /\
  state r = s.
Proof.
  intros Hb. unfold charts_tab. mrun. rewrite Hb. unfold generic_chart.
  destruct (numeric_cols d) as [|n ns] eqn:En.
  - mrun. repeat split; auto.
  - mrun.
    destruct (px _ d _ _ _) as [e|fig]; simpl;
      (split; [split; [intros [H|[]]; discriminate H | discriminate]
              |split; [discriminate | split; reflexivity]]).
Qed.

Lemma no_numeric_columns_notice_witness :
  log (charts_tab untouched frame_text_only initial_session)
  = [st_info "No numeric columns available for visualization"] /\
  result (charts_tab untouched frame_text_only initial_session) = inr tt.
Proof.
  destruct (no_numeric_columns_notice untouched frame_text_only initial_session
              eq_refl) as [_ [Hlog [Hres _]]].
  split; [exact (Hlog eq_refl) | exact Hres].
Defined.

(* ================================================================== *)
(** * The statistics tab *)

Lemma px_one_known (kind : PxKind) (d : DataFrame) (l : Label) :
  In l (columns d) ->
  px kind d (Some l) None None = inr (PxFigure kind d (Some l) None None) /\
  px kind d None (Some l) None = inr (PxFigure kind d None (Some l) None).
Proof.
  intros H. apply mem_In in H. unfold px. now rewrite H.
Qed.

(** C9. The statistics tab shows one table: the descriptive statistics
    (count, mean, std, min, quartiles, max) of the Dataset restricted to its
    Numeric columns, whenever there is a Numeric column.  The restricted
    frame has the rows of the Dataset and the Numeric columns, each with the
    values it has in the Dataset; with unique labels these are all the
    columns of a number dtype and no others.  The tab shows the Pearson
    correlation matrix of the same frame exactly when there are at least two
    Numeric columns, and otherwise leaves it out; it never raises. *)
Theorem summary_statistics (w : Widgets) (d : DataFrame) (s : Session) :
  let r := statistics_tab w d s in
  let numeric := getitems d (numeric_cols d) in
  columns numeric = numeric_cols d /\
  len numeric = len d /\
  incl (series numeric) (series d) /\
  (NoDup (columns d) -> series numeric = series (select_dtypes [sel_number] d)) /\
  (forall t, In (st_dataframe t) (log r)
             <-> numeric_cols d <> [] /\
                 t = Describe ["count"; "mean"; "std"; "min"; "25%"; "50%"; "75%"; "max"]
                              numeric) /\
  (forall m, In (st_plotly_chart (PxImshow m)) (log r)
             <-> 2 <= length (numeric_cols d) /\ m = Corr "pearson" numeric) /\
  result r = inr tt /\
  state r = s.
Proof.
  intros r numeric. subst r numeric.
  split; [apply columns_getitems, numeric_cols_incl|].
  split; [reflexivity|].
  split; [apply pick_incl|].
  split.
  { intros Hnd. unfold getitems, numeric_cols, columns. simpl.
    apply pick_all; [exact Hnd|]. intros c Hc. apply filter_In in Hc. tauto. }
  change (Describe ["count"; "mean"; "std"; "min"; "25%"; "50%"; "75%"; "max"]
                   (getitems d (numeric_cols d)))
    with (describe (getitems d (numeric_cols d))).
  change (Corr "pearson" (getitems d (numeric_cols d)))
    with (corr (getitems d (numeric_cols d))).
  unfold statistics_tab.
  destruct (numeric_cols d) as [|n ns] eqn:En.
  - mrun. split; [|split; [|split; reflexivity]].
    + intros t; split; [intros [H|[]]; discriminate H | intros [H _]; congruence].
    + intros m; split; [intros [H|[]]; discriminate H | intros [H _]; lia].
  - destruct (selectbox (n :: ns) (dist_column w)) as [l|] eqn:El.
    2:{ unfold selectbox in El. destruct (dist_column w) as [c|];
        [destruct (mem c (n :: ns))|]; discriminate. }
    assert (Hl : In l (columns d)).
    { apply numeric_cols_incl. rewrite En. eapply selectbox_mem; eauto. }
    destruct (px_one_known px_histogram d l Hl) as [Hh _].
    destruct (px_one_known px_box d l Hl) as [_ Hb].
    unfold bind, call. rewrite Hh, Hb.
    destruct ns as [|n' ns']; mrun.
    + split; [|split; [|split; reflexivity]].
      * intros t; split.
        -- intros H; split; [discriminate|].
           repeat (destruct H as [H|H]; [inversion H; reflexivity|]). destruct H.
        -- intros [_ H]. subst. auto.
      * intros m; split.
        -- intros H. exfalso.
           repeat (destruct H as [H|H]; [discriminate H|]). destruct H.
        -- intros [H _]. lia.
    + split; [|split; [|split; reflexivity]].
      * intros t; split.
        -- intros H; split; [discriminate|].
           repeat (destruct H as [H|H]; [inversion H; reflexivity|]). destruct H.
        -- intros [_ H]. subst. auto.
      * intros m; split.
        -- intros H; split; [lia|].
           repeat (destruct H as [H|H]; [inversion H; reflexivity|]). destruct H.
        -- intros [_ H]. subst. auto 10.
Qed.

Lemma summary_statistics_witness :
  series (getitems frame_two_numeric (numeric_cols frame_two_numeric))
  = series frame_two_numeric /\
  In (st_dataframe
        (Describe ["count"; "mean"; "std"; "min"; "25%"; "50%"; "75%"; "max"]
                  (getitems frame_two_numeric (numeric_cols frame_two_numeric))))
     (log (statistics_tab untouched frame_two_numeric initial_session)) /\
  In (st_plotly_chart
        (PxImshow (Corr "pearson"
                        (getitems frame_two_numeric (numeric_cols frame_two_numeric)))))
     (log (statistics_tab untouched frame_two_numeric initial_session)).
Proof.
  assert (Hnd : NoDup (columns frame_two_numeric)).
  { unfold columns; simpl. repeat constructor; simpl; intuition discriminate. }
  destruct (summary_statistics untouched frame_two_numeric initial_session)
    as [_ [_ [_ [Hs [Hd [Hc _]]]]]].
  split; [exact (Hs Hnd)|]. split.
  - apply Hd. split; [discriminate | reflexivity].
  - apply Hc. split; [simpl; lia | reflexivity].
Defined.

(* ================================================================== *)
(** * The price chart of a yFinance frame *)

Lemma ohlc_present_iff (d : DataFrame) :
  forallb (fun col => has_column col d) ["Open"; "High"; "Low"; "Close"] = true
  <-> ohlc_present d.
Proof.
  unfold ohlc_present. simpl. rewrite !andb_true_iff. tauto.
Qed.

Lemma price_trace_ohlc (d : DataFrame) (s : Session) (date : Series) :
  ohlc_present d -> getitem d "Date" = inr date ->
  exists o h l c,
    getitem d "Open" = inr o /\ getitem d "High" = inr h /\
    getitem d "Low" = inr l /\ getitem d "Close" = inr c /\
    price_trace d s = mkRun [] s (inr (Candlestick date o h l c "OHLC")).
Proof.
  intros Hp Hd. pose proof Hp as [Ho [Hh [Hl Hc]]].
  destruct (getitem_present _ _ Ho) as [o [Eo _]].
  destruct (getitem_present _ _ Hh) as [h [Eh _]].
  destruct (getitem_present _ _ Hl) as [l [El _]].
  destruct (getitem_present _ _ Hc) as [c [Ec _]].
  exists o, h, l, c. repeat (split; [assumption|]).
  unfold price_trace. apply ohlc_present_iff in Hp. rewrite Hp.
  unfold bind, call. rewrite Hd, Eo, Eh, El, Ec. reflexivity.
Qed.

Lemma price_trace_line (d : DataFrame) (s : Session) (date close : Series) :
  ~ ohlc_present d -> getitem d "Date" = inr date -> getitem d "Close" = inr close ->
  price_trace d s = mkRun [] s (inr (Scatter date close "lines" "Close Price")).
Proof.
  intros Hp Hd Hc. unfold price_trace.
  destruct (forallb _ _) eqn:E.
  - exfalso. apply Hp. now apply ohlc_present_iff.
  - unfold bind, call. rewrite Hd, Hc. reflexivity.
Qed.

(** The fetch gives every history whose index is named [Date] a [Date]
    column. *)
Lemma reset_index_date (h : History) (d : DataFrame) :
  index_name h = Some "Date" -> reset_index h = inr d ->
  has_column "Date" d = true.
Proof.
  unfold reset_index. intros Hn. rewrite Hn.
  destruct (mem (LStr "Date") (map name (history_columns h))); [discriminate|].
  intros H. inversion H. reflexivity.
Qed.

(** Without a [Date] column building the trace raises [KeyError]. *)
Lemma price_trace_without_date (d : DataFrame) (s : Session) :
  has_column "Date" d = false ->
  price_trace d s = mkRun [] s (inl (KeyError "Date")).
Proof.
  intros H. unfold price_trace, bind, call.
  rewrite (getitem_absent _ _ H). destruct (forallb _ _); reflexivity.
Qed.

(** C1. For a frame loaded from yFinance that has a [Close] column (and the
    [Date] column every yFinance frame has), chart dispatch draws one price
    figure whose x axis is [Date].  Its single trace is the candlestick of
    the Open, High, Low and Close columns if and only if all four are
    present; if any of them is absent it is the line of [Close] against
    [Date].  The volume bar chart follows when there is a [Volume] column. *)
Theorem ohlc_dispatch (w : Widgets) (d : DataFrame) (s : Session) :
  data_source s = Some "yFinance" ->
  has_column "Close" d = true ->
  has_column "Date" d = true ->
  exists date close trace,
    getitem d "Date" = inr date /\ name date = LStr "Date" /\
    getitem d "Close" = inr close /\
    charts_tab w d s =
      mkRun (st_markdown "#### Stock Price Over Time"
             :: st_plotly_chart (GoFigure [trace] (Some "Date") (Some "Price (USD)"))
             :: volume_chart d)
            s (inr tt) /\
    trace_x trace = date /\
    (is_candlestick trace = true <-> ohlc_present d) /\
    (ohlc_present d ->
     exists o h l,
       getitem d "Open" = inr o /\ getitem d "High" = inr h /\
       getitem d "Low" = inr l /\
       trace = Candlestick date o h l close "OHLC") /\
    (~ ohlc_present d -> trace = Scatter date close "lines" "Close Price").
Proof.
  intros Hs Hclose Hdate.
  destruct (getitem_present _ _ Hdate) as [date [Ed [_ Nd]]].
  destruct (getitem_present _ _ Hclose) as [close [Ec _]].
  assert (Hvol : forall t,
             price_trace d s = mkRun [] s (inr t) ->
             charts_tab w d s =
               mkRun (st_markdown "#### Stock Price Over Time"
                      :: st_plotly_chart
                           (GoFigure [t] (Some "Date") (Some "Price (USD)"))
                      :: volume_chart d)
                     s (inr tt)).
  { intros t Ht. unfold charts_tab, bind at 1, get. simpl.
    rewrite Hs, Hclose. simpl. unfold price_chart, volume_chart.
    unfold bind at 1. simpl. unfold bind at 1. rewrite Ht. simpl.
    unfold bind at 1. simpl.
    destruct (has_column "Volume" d) eqn:Ev.
    - unfold bind, call, px. simpl.
      unfold has_column in Hdate, Ev. rewrite Hdate, Ev. reflexivity.
    - reflexivity. }
  assert (Hdec : ohlc_present d \/ ~ ohlc_present d).
  { destruct (forallb (fun col => has_column col d) ["Open"; "High"; "Low"; "Close"]) eqn:E.
    - left. now apply ohlc_present_iff.
    - right. intros H. apply ohlc_present_iff in H. congruence. }
  destruct Hdec as [Hp|Hn].
  - destruct (price_trace_ohlc d s date Hp Ed) as [o [h [l [c [Eo [Eh [El [Ec' Ht]]]]]]]].
    assert (c = close) by congruence. subst c.
    exists date, close, (Candlestick date o h l close "OHLC").
    split; [exact Ed|]. split; [exact Nd|]. split; [exact Ec|].
    split; [apply Hvol; exact Ht|]. split; [reflexivity|].
    split; [split; [intros _; exact Hp | reflexivity]|].
    split; [intros _; exists o, h, l; auto | intros H; contradiction].
  - pose proof (price_trace_line d s date close Hn Ed Ec) as Ht.
    exists date, close, (Scatter date close "lines" "Close Price").
    split; [exact Ed|]. split; [exact Nd|]. split; [exact Ec|].
    split; [apply Hvol; exact Ht|]. split; [reflexivity|].
    split; [split; [discriminate | intros H; contradiction]|].
    split; [intros H; contradiction | reflexivity].
Qed.

Lemma ohlc_dispatch_witness :
  charts_tab untouched frame_no_high (session_yfinance frame_no_high) =
    mkRun [ st_markdown "#### Stock Price Over Time";
            st_plotly_chart
              (GoFigure [Scatter (mkSeries (LStr "Date") datetime64_ns_tz two_days)
                                 (prices "Close" 11 12) "lines" "Close Price"]
                        (Some "Date") (Some "Price (USD)")) ]
          (session_yfinance frame_no_high) (inr tt).
Proof.
  destruct (ohlc_dispatch untouched frame_no_high (session_yfinance frame_no_high)
              eq_refl eq_refl eq_refl)
    as [date [close [trace [Ed [_ [Ec [Hrun [_ [_ [_ Hline]]]]]]]]]].
  rewrite Hrun, Hline.
  - inversion Ed. inversion Ec. reflexivity.
  - intros [_ [H _]]. discriminate H.
Defined.

(* ================================================================== *)
(** * JSON ingestion *)

Lemma unique_In (k : string) (ks : list string) : In k (unique ks) <-> In k ks.
Proof.
  induction ks as [|a ks IH]; simpl; [tauto|].
  rewrite filter_In, IH.
  destruct (String.eqb_spec k a) as [E|N]; simpl.
  - subst. tauto.
  - split.
    + intros [H|[H _]]; auto.
    + intros [H|H]; [left; assumption | right; auto].
Qed.

Lemma unique_NoDup (ks : list string) : NoDup (unique ks).
Proof.
  induction ks as [|a ks IH]; simpl; constructor.
  - rewrite filter_In. intros [_ H]. rewrite String.eqb_refl in H. discriminate.
  - now apply NoDup_filter.
Qed.

Lemma NoDup_map_LStr (ks : list string) : NoDup ks -> NoDup (map LStr ks).
Proof.
  induction 1 as [|k ks Hk Hnd IH]; simpl; constructor; [|assumption].
  rewrite in_map_iff. intros [k' [E H]]. inversion E. now subst.
Qed.

Lemma columns_from_records (recs : list record) :
  columns (from_records recs)
  = map LStr (unique (concat (map dict_keys recs))).
Proof.
  unfold columns, from_records. simpl. rewrite map_map. reflexivity.
Qed.

Lemma find_series_from_keys (f : string -> list PyObj) (k : string) (keys : list string) :
  In k keys ->
  find_series (LStr k) (map (fun k' => maybe_convert_objects (LStr k') (f k')) keys)
  = Some (maybe_convert_objects (LStr k) (f k)).
Proof.
  induction keys as [|a keys IH]; simpl; [tauto|].
  intros H. destruct (String.eqb_spec k a) as [E|N].
  - now subst.
  - destruct H as [H|H]; [congruence | auto].
Qed.

(** What the records path builds. *)
Lemma from_records_spec (recs : list record) :
  let d := from_records recs in
  len d = length recs /\
  NoDup (columns d) /\
  (forall l, In l (columns d) <->
             exists k r, l = LStr k /\ In r recs /\ In k (dict_keys r)) /\
  (forall k, In (LStr k) (columns d) ->
     exists c, getitem d k = inr c /\
               values c = map (fun r => as_cell (dtype c) (dict_get k r)) recs /\
               (forall i r, nth_error recs i = Some r -> dict_get k r = None ->
                            nth_error (values c) i = Some NaN)).
Proof.
  intros d. subst d. split; [reflexivity|].
  rewrite columns_from_records. split; [|split].
  - apply NoDup_map_LStr, unique_NoDup.
  - intros l. rewrite in_map_iff. split.
    + intros [k [E H]]. apply unique_In, in_concat in H.
      destruct H as [ks [Hks Hk]]. apply in_map_iff in Hks.
      destruct Hks as [r [Er Hr]]. subst ks. exists k, r. auto.
    + intros [k [r [E [Hr Hk]]]]. exists k. split; [auto|].
      apply unique_In, in_concat. exists (dict_keys r). split; [|assumption].
      now apply in_map.
  - intros k H. apply in_map_iff in H. destruct H as [k' [E H]].
    inversion E; subst k'.
    exists (maybe_convert_objects (LStr k) (map (dict_get k) recs)).
    split; [|split].
    + unfold getitem, from_records. simpl.
      now rewrite (find_series_from_keys (fun k' => map (dict_get k') recs)).
    + simpl. now rewrite map_map.
    + intros i r Hi Hn. simpl. rewrite map_map.
      rewrite (map_nth_error _ _ _ Hi). now rewrite Hn.
Qed.

Lemma pd_DataFrame_records (items : list json) (recs : list record) :
  all_dicts items = Some recs -> pd_DataFrame items = inr (from_records recs).
Proof.
  destruct items as [|j items].
  - simpl. intros H. inversion H. reflexivity.
  - destruct j; simpl; try discriminate.
    intros H. now rewrite H.
Qed.

(** The DataFrame constructor raises no exception of the request library. *)
Lemma pd_DataFrame_raises (items : list json) (e : Exn) :
  pd_DataFrame items = inl e -> is_Timeout e = false /\ is_RequestException e = false.
Proof.
  unfold pd_DataFrame. destruct items as [|j items]; [discriminate|].
  destruct j; try discriminate.
  - destruct (all_rows _); [discriminate|]. intros H. inversion H. auto.
  - destruct (all_dicts _); [discriminate|]. intros H. inversion H. auto.
Qed.

(** C2 (amended). For a response that carries JSON: a list of objects
    becomes one row per object, the columns are the union of the keys and a
    key an object lacks is filled with the missing-value marker; a single
    object becomes exactly one row; a top-level value that is neither a list
    nor an object is reported as an unsupported format and gives no frame.
    A list is handed to the DataFrame constructor whatever its elements are:
    the fetch returns the frame the constructor builds, with no message, and
    the constructor's exception escapes when it raises. *)
Theorem json_ingestion (env : Env) (url : string) (s : Session)
        (resp : Response) (data : json) :
  requests_get env url = inr resp ->
  raise_for_status resp = inr tt ->
  body_json resp = Some data ->
  (forall items recs,
     data = JArr items -> all_dicts items = Some recs ->
     let d := from_records recs in
     fetch_api_data env url s = mkRun [] s (inr (Some d)) /\
     len d = length recs /\
     NoDup (columns d) /\
     (forall l, In l (columns d) <->
                exists k r, l = LStr k /\ In r recs /\ In k (dict_keys r)) /\
     (forall k, In (LStr k) (columns d) ->
        exists c, getitem d k = inr c /\
                  values c = map (fun r => as_cell (dtype c) (dict_get k r)) recs /\
                  (forall i r, nth_error recs i = Some r -> dict_get k r = None ->
                               nth_error (values c) i = Some NaN))) /\
  (forall f,
     data = JObj f ->
     let d := from_records [f] in
     fetch_api_data env url s = mkRun [] s (inr (Some d)) /\
     len d = 1 /\
     columns d = map LStr (unique (dict_keys f))) /\
  (is_list data = false -> is_object data = false ->
   fetch_api_data env url s =
     mkRun [st_error "API response format not supported"] s (inr None)) /\
  (forall items,
     data = JArr items ->
     fetch_api_data env url s =
       match pd_DataFrame items with
       | inr d => mkRun [] s (inr (Some d))
       | inl e => mkRun [] s (inl e)
       end).
Proof.
  intros Hget Hst Hbody.
  assert (Hj : response_json resp = inr data).
  { unfold response_json. now rewrite Hbody. }
  split; [|split; [|split]].
  - intros items recs E Hall d. subst data.
    split; [|apply from_records_spec].
    unfold fetch_api_data, try_except, bind, call.
    rewrite Hget. simpl. rewrite Hst. simpl. rewrite Hj. simpl.
    rewrite (pd_DataFrame_records _ _ Hall). reflexivity.
  - intros f E d. subst data. split; [|split].
    + unfold fetch_api_data, try_except, bind, call.
      rewrite Hget. simpl. rewrite Hst. simpl. rewrite Hj. reflexivity.
    + reflexivity.
    + subst d. rewrite columns_from_records. simpl. now rewrite app_nil_r.
  - intros Hl Ho.
    unfold fetch_api_data, try_except, bind, call.
    rewrite Hget. simpl. rewrite Hst. simpl. rewrite Hj.
    destruct data; try discriminate; reflexivity.
  - intros items E. subst data.
    unfold fetch_api_data, try_except, bind, call.
    rewrite Hget. simpl. rewrite Hst. simpl. rewrite Hj. simpl.
    destruct (pd_DataFrame items) as [e|d] eqn:Epd; simpl; [|reflexivity].
    destruct (pd_DataFrame_raises items e Epd) as [Ht Hr].
    now rewrite Ht, Hr.
Qed.

(** The three scenarios of the specification, and a list of numbers. *)
Lemma json_ingestion_witness :
  fetch_api_data (env_json json_two_records) "https://api.example.com/data"
                 initial_session
  = mkRun [] initial_session
      (inr (Some (mkDataFrame 2
                    [ mkSeries (LStr "a") int64 [Val (JInt 1); Val (JInt 2)];
                      mkSeries (LStr "b") object [Val (JStr "x"); NaN] ]))) /\
  fetch_api_data (env_json json_one_record) "https://api.example.com/data"
                 initial_session
  = mkRun [] initial_session
      (inr (Some (mkDataFrame 1 [ mkSeries (LStr "a") int64 [Val (JInt 1)] ]))) /\
  fetch_api_data (env_json (JInt 42)) "https://api.example.com/data"
                 initial_session
  = mkRun [st_error "API response format not supported"] initial_session (inr None) /\
  fetch_api_data (env_json json_scalars) "https://api.example.com/data"
                 initial_session
  = mkRun [] initial_session
      (inr (Some (mkDataFrame 3
                    [ mkSeries (LInt 0) int64
                               [Val (JInt 1); Val (JInt 2); Val (JInt 3)] ]))).
Proof.
  split; [|split; [|split]].
  - destruct (json_ingestion (env_json json_two_records)
                "https://api.example.com/data" initial_session
                (mkResponse 200 (Some json_two_records)) json_two_records
                eq_refl eq_refl eq_refl) as [H _].
    destruct (H _ _ eq_refl eq_refl) as [E _]. exact E.
  - destruct (json_ingestion (env_json json_one_record)
                "https://api.example.com/data" initial_session
                (mkResponse 200 (Some json_one_record)) json_one_record
                eq_refl eq_refl eq_refl) as [_ [H _]].
    destruct (H _ eq_refl) as [E _]. exact E.
  - destruct (json_ingestion (env_json (JInt 42))
                "https://api.example.com/data" initial_session
                (mkResponse 200 (Some (JInt 42))) (JInt 42)
                eq_refl eq_refl eq_refl) as [_ [_ [H _]]].
    exact (H eq_refl eq_refl).
  - destruct (json_ingestion (env_json json_scalars)
                "https://api.example.com/data" initial_session
                (mkResponse 200 (Some json_scalars)) json_scalars
                eq_refl eq_refl eq_refl) as [_ [_ [_ H]]].
    exact (H _ eq_refl).
Defined.

(** C2, as the specification words it, fails: a list of numbers is neither a
    list of objects nor a single object, yet it is not reported as an
    unsupported format; it becomes a frame with one column. *)
Lemma json_other_shape_counterexample :
  is_list_of_objects json_scalars = false /\
  is_object json_scalars = false /\
  fetch_api_data (env_json json_scalars) "https://api.example.com/data"
                 initial_session
  = mkRun [] initial_session
      (inr (Some (mkDataFrame 3
                    [ mkSeries (LInt 0) int64
                               [Val (JInt 1); Val (JInt 2); Val (JInt 3)] ]))).
Proof.
  repeat split.
Qed.

(* ================================================================== *)
(** * The session across a run *)

Lemma keeps_ret {A} (a : A) : keeps_state (ret a).
Proof. intros s. reflexivity. Qed.

Lemma keeps_emit (e : Event) : keeps_state (emit e).
Proof. intros s. reflexivity. Qed.

Lemma keeps_raise {A} (e : Exn) : keeps_state (@raise A e).
Proof. intros s. reflexivity. Qed.

Lemma keeps_call {A} (r : Exn + A) : keeps_state (call r).
Proof. intros s. destruct r; reflexivity. Qed.

Lemma keeps_get : keeps_state get.
Proof. intros s. reflexivity. Qed.

Lemma keeps_bind {A B} (m : M A) (f : A -> M B) :
  keeps_state m -> (forall a, keeps_state (f a)) -> keeps_state (bind m f).
Proof.
  intros Hm Hf s. unfold bind. specialize (Hm s).
  destruct (m s) as [l1 s1 [e|a]]; simpl in *; [assumption|]. subst s1.
  specialize (Hf a s). now destruct (f a s).
Qed.

Lemma keeps_try {A} (body : M A) (handler : Exn -> option (M A)) :
  keeps_state body ->
  (forall e h, handler e = Some h -> keeps_state h) ->
  keeps_state (try_except body handler).
Proof.
  intros Hb Hh s. unfold try_except. specialize (Hb s).
  destruct (body s) as [l1 s1 [e|a]]; simpl in *; [|assumption]. subst s1.
  destruct (handler e) as [h|] eqn:E; [|reflexivity].
  specialize (Hh e h E s). now destruct (h s).
Qed.

(** The state after a bind whose continuation keeps the state. *)
Lemma state_bind_keeps {A B} (m : M A) (f : A -> M B) (s : Session) :
  (forall a, keeps_state (f a)) -> state (bind m f s) = state (m s).
Proof.
  intros Hf. unfold bind.
  destruct (m s) as [l1 s1 [e|a]]; simpl; [reflexivity|].
  specialize (Hf a s1). now destruct (f a s1).
Qed.

Ltac keeps :=
  repeat first
    [ apply keeps_ret | apply keeps_emit | apply keeps_raise
    | apply keeps_call | apply keeps_get
    | apply keeps_bind; [|intros ?]
    | apply keeps_try;
      [|let h := fresh "h" in let E := fresh "E" in
        intros ? h E; inversion E; subst h]
    | match goal with
      | |- keeps_state (if ?b then _ else _) => destruct b
      | |- keeps_state (match ?x with _ => _ end) => destruct x
      end ].

Lemma keeps_fetch_yfinance_data (env : Env) (ticker period : string) :
  keeps_state (fetch_yfinance_data env ticker period).
Proof. unfold fetch_yfinance_data. keeps. Qed.

Lemma keeps_fetch_api_data (env : Env) (url : string) :
  keeps_state (fetch_api_data env url).
Proof.
  unfold fetch_api_data. apply keeps_try.
  - keeps.
  - intros e h E. destruct (is_Timeout e); [|destruct (is_RequestException e)];
      inversion E; subst h; keeps.
Qed.

Lemma keeps_validate_dataframe (d : option DataFrame) :
  keeps_state (validate_dataframe d).
Proof. unfold validate_dataframe. keeps. Qed.

Lemma keeps_source_info (d : DataFrame) : keeps_state (source_info d).
Proof. unfold source_info. keeps. Qed.

Lemma keeps_data_tab (env : Env) (w : Widgets) (d : DataFrame) :
  keeps_state (data_tab env w d).
Proof. unfold data_tab. keeps. Qed.

Lemma keeps_price_trace (d : DataFrame) : keeps_state (price_trace d).
Proof. unfold price_trace. keeps. Qed.

Lemma keeps_price_chart (d : DataFrame) : keeps_state (price_chart d).
Proof.
  unfold price_chart.
  apply keeps_bind; [keeps|intros _].
  apply keeps_bind; [apply keeps_price_trace|intros t]. keeps.
Qed.

Lemma keeps_generic_chart (w : Widgets) (d : DataFrame) :
  keeps_state (generic_chart w d).
Proof. unfold generic_chart. keeps. Qed.

Lemma keeps_charts_tab (w : Widgets) (d : DataFrame) : keeps_state (charts_tab w d).
Proof.
  unfold charts_tab. apply keeps_bind; [keeps|intros s'].
  destruct (_ && _); [apply keeps_price_chart | apply keeps_generic_chart].
Qed.

Lemma keeps_statistics_tab (w : Widgets) (d : DataFrame) :
  keeps_state (statistics_tab w d).
Proof. unfold statistics_tab. keeps. Qed.

Lemma keeps_welcome : keeps_state welcome.
Proof. unfold welcome. keeps. Qed.

(** The main content only reads the session. *)
Lemma keeps_main_content (env : Env) (w : Widgets) : keeps_state (main_content env w).
Proof.
  unfold main_content. apply keeps_bind; [keeps|intros s'].
  destruct (df s') as [d|]; [|apply keeps_welcome].
  apply keeps_bind; [apply keeps_validate_dataframe|intros valid].
  destruct valid; [|apply keeps_welcome].
  apply keeps_bind; [apply keeps_source_info|intros _].
  apply keeps_bind; [apply keeps_data_tab|intros _].
  apply keeps_bind; [apply keeps_charts_tab|intros _].
  apply keeps_statistics_tab.
Qed.

Lemma state_app (env : Env) (w : Widgets) (s : Session) :
  state (app env w s) = state (sidebar env w s).
Proof.
  unfold app. apply state_bind_keeps. intros _. apply keeps_main_content.
Qed.

(** The sidebar stores exactly the load the specification describes. *)
Lemma state_fetch_yfinance (env : Env) (w : Widgets) (s : Session) :
  data_source_selector w = "yFinance" ->
  state (sidebar env w s) = session_after env w s.
Proof.
  intros Hsel. unfold sidebar, session_after, attempt. rewrite Hsel. simpl.
  destruct (fetch_stock_button w); [|reflexivity].
  unfold fetch_yfinance_data, timeseries_adapter, try_except, bind, call.
  destruct (yf_history env (upper (ticker_input w)) (period_select w)) as [e|h];
    simpl; [reflexivity|].
  destruct (reset_index h) as [e|d]; simpl; [reflexivity|].
  destruct (empty d); reflexivity.
Qed.

Lemma state_fetch_api (env : Env) (w : Widgets) (s : Session) :
  data_source_selector w = "API Link" ->
  state (sidebar env w s) = session_after env w s.
Proof.
  intros Hsel. unfold sidebar, session_after, attempt. rewrite Hsel. simpl.
  destruct (fetch_api_button w); [|reflexivity].
  destruct (api_url_input w =? "") eqn:Eurl; simpl; [reflexivity|].
  unfold fetch_api_data, json_api_adapter, try_except, bind, call.
  destruct (requests_get env (api_url_input w)) as [e|resp]; simpl.
  { destruct (is_Timeout e); simpl; [reflexivity|].
    destruct (is_RequestException e); reflexivity. }
  destruct (raise_for_status resp) as [e|u]; simpl.
  { destruct (is_Timeout e); simpl; [reflexivity|].
    destruct (is_RequestException e); reflexivity. }
  unfold response_json. destruct (body_json resp) as [data|]; simpl; [|reflexivity].
  destruct data; simpl; try reflexivity.
  - destruct (pd_DataFrame items) as [e|d]; simpl.
    + destruct (is_Timeout e); simpl; [reflexivity|].
      destruct (is_RequestException e); reflexivity.
    + destruct (empty d); reflexivity.
  - match goal with
    | |- context [if negb ?b then _ else _] => destruct b
    end; reflexivity.
Qed.

Lemma state_upload_csv (env : Env) (w : Widgets) (s : Session) :
  (data_source_selector w =? "yFinance") = false ->
  (data_source_selector w =? "API Link") = false ->
  state (sidebar env w s) = session_after env w s.
Proof.
  intros H1 H2. unfold sidebar, session_after, attempt. rewrite H1, H2.
  destruct (csv_uploader w) as [f|]; [|reflexivity].
  unfold csv_adapter, try_except, bind, call.
  destruct (read_csv env f) as [e|d]; reflexivity.
Qed.

Lemma state_sidebar (env : Env) (w : Widgets) (s : Session) :
  state (sidebar env w s) = session_after env w s.
Proof.
  destruct (data_source_selector w =? "yFinance") eqn:E1.
  - apply state_fetch_yfinance. now apply String.eqb_eq.
  - destruct (data_source_selector w =? "API Link") eqn:E2.
    + apply state_fetch_api. now apply String.eqb_eq.
    + now apply state_upload_csv.
Qed.

Lemma state_run (env : Env) (w : Widgets) (s : Session) :
  state (app env w s) = session_after env w s.
Proof. rewrite state_app. apply state_sidebar. Qed.

(** The fetch functions return [None] exactly when the adapter fails. *)
Lemma fetch_yfinance_data_adapter (env : Env) (ticker period : string) (s : Session) :
  result (fetch_yfinance_data env ticker period s)
  = inr (match timeseries_adapter env ticker period with
         | inl _ => None
         | inr d => Some d
         end).
Proof.
  unfold fetch_yfinance_data, timeseries_adapter, try_except, bind, call.
  destruct (yf_history env ticker period) as [e|h]; simpl; [reflexivity|].
  destruct (reset_index h) as [e|d]; reflexivity.
Qed.

Lemma fetch_api_data_adapter (env : Env) (url : string) (s : Session) :
  match json_api_adapter env url with
  | inr d => result (fetch_api_data env url s) = inr (Some d)
  | inl _ => result (fetch_api_data env url s) = inr None \/
             exists e, result (fetch_api_data env url s) = inl e
  end.
Proof.
  unfold fetch_api_data, json_api_adapter, try_except, bind, call.
  destruct (requests_get env url) as [e|resp]; simpl.
  { destruct (is_Timeout e); simpl; [now left|].
    destruct (is_RequestException e); simpl; [now left | right; eauto]. }
  destruct (raise_for_status resp) as [e|u]; simpl.
  { destruct (is_Timeout e); simpl; [now left|].
    destruct (is_RequestException e); simpl; [now left | right; eauto]. }
  unfold response_json. destruct (body_json resp) as [data|]; simpl; [|now left].
  destruct data; simpl; try (now left); try reflexivity.
  destruct (pd_DataFrame items) as [e|d]; simpl; [|reflexivity].
  destruct (is_Timeout e); simpl; [now left|].
  destruct (is_RequestException e); simpl; [now left | right; eauto].
Qed.

(** C7. A failed ingestion attempt, whatever the source and whatever the
    failure (fetch, timeout, HTTP, parse or unsupported shape), leaves the
    session as it was: Dataset, source kind and ticker data.  The session
    changes only when the adapter has produced a Dataset, and then the
    Dataset and its source kind are the ones stored. *)
Theorem ingestion_failure_atomic (env : Env) (w : Widgets) (s : Session) :
  (forall e, attempt env w = Failed e ->
             state (sidebar env w s) = s /\ state (app env w s) = s) /\
  (state (app env w s) <> s ->
   exists kind d,
     attempt env w = Produced kind d /\
     df (state (app env w s)) = Some d /\
     data_source (state (app env w s)) = Some kind).
Proof.
  rewrite state_run, state_sidebar. unfold session_after. split.
  - intros e H. rewrite H. simpl. auto.
  - intros H. destruct (attempt env w) as [|e|kind d]; simpl in *; try congruence.
    exists kind, d.
    destruct ((kind =? "CSV") || negb (empty d)); simpl in *; [auto | congruence].
Qed.

Lemma ingestion_failure_atomic_witness :
  attempt env_timeout w_api = Failed TimeoutError /\
  state (app env_timeout w_api (session_yfinance frame_ohlcv))
  = session_yfinance frame_ohlcv.
Proof.
  split; [reflexivity|].
  destruct (ingestion_failure_atomic env_timeout w_api (session_yfinance frame_ohlcv))
    as [H _].
  destruct (H TimeoutError eq_refl) as [_ E]. exact E.
Defined.

(* ================================================================== *)
(** * The session across runs *)

Lemma load_kind (env : Env) (w : Widgets) (kind : string) (d : DataFrame) :
  load_of (attempt env w) = Some (kind, d) -> In kind ["yFinance"; "API"; "CSV"].
Proof.
  unfold attempt.
  destruct (data_source_selector w =? "yFinance").
  - destruct (fetch_stock_button w); [|discriminate].
    destruct (timeseries_adapter _ _ _) as [e|d']; simpl; [discriminate|].
    destruct (negb (empty d')); [|discriminate].
    intros H. inversion H. simpl. auto.
  - destruct (data_source_selector w =? "API Link").
    + destruct (_ && _); [|discriminate].
      destruct (json_api_adapter _ _) as [e|d']; simpl; [discriminate|].
      destruct (negb (empty d')); [|discriminate].
      intros H. inversion H. simpl. auto.
    + destruct (csv_uploader w) as [f|]; [|discriminate].
      destruct (csv_adapter env f) as [e|d']; simpl; [discriminate|].
      intros H. inversion H. simpl. auto.
Qed.

Lemma session_after_records (env : Env) (w : Widgets) (s : Session)
      (l : option (string * DataFrame)) :
  records_load s l ->
  records_load (session_after env w s)
    (match load_of (attempt env w) with
     | Some kd => Some kd
     | None => l
     end).
Proof.
  intros H. unfold session_after.
  destruct (load_of (attempt env w)) as [[kind d]|]; simpl; auto.
Qed.

Lemma runs_records (steps : list (Env * Widgets)) :
  forall s l, records_load s l -> records_load (runs steps s) (last_load steps l).
Proof.
  induction steps as [|[env w] steps IH]; intros s l H; simpl; [assumption|].
  apply IH. rewrite state_run. now apply session_after_records.
Qed.

Lemma last_load_kind (steps : list (Env * Widgets)) :
  forall l,
    (forall kind d, l = Some (kind, d) -> In kind ["yFinance"; "API"; "CSV"]) ->
    forall kind d, last_load steps l = Some (kind, d) ->
                   In kind ["yFinance"; "API"; "CSV"].
Proof.
  induction steps as [|[env w] steps IH]; intros l Hl kind d; simpl.
  - apply Hl.
  - apply IH. intros k d' E.
    destruct (load_of (attempt env w)) as [[k0 d0]|] eqn:El.
    + inversion E; subst. eapply load_kind; eauto.
    + eapply Hl; eauto.
Qed.

Lemma charts_tab_other_source (w : Widgets) (d : DataFrame) (s : Session) :
  opt_eqb (data_source s) "yFinance" = false ->
  charts_tab w d s = generic_chart w d s.
Proof.
  intros H. unfold charts_tab, bind, get. rewrite H. simpl.
  now destruct (generic_chart w d s).
Qed.

(** C10 (amended). Dataset and source kind are assigned together: after any
    sequence of runs from the initial session, the session holds exactly the
    Dataset of the last load and the kind ("yFinance", "API" or "CSV") of the
    source that produced it, and holds neither if there was no load.  A
    failed attempt changes neither, and neither does an empty yFinance or API
    result; whatever the CSV parser returns is loaded.  The price chart
    branch is not taken for a Dataset whose last load was from the API or a
    CSV file. *)
Theorem session_source_consistency (steps : list (Env * Widgets)) :
  let s := runs steps initial_session in
  records_load s (last_load steps None) /\
  (forall kind d, last_load steps None = Some (kind, d) ->
                  In kind ["yFinance"; "API"; "CSV"]) /\
  (forall env w,
     (forall e, attempt env w = Failed e -> state (app env w s) = s) /\
     (forall kind d, attempt env w = Produced kind d -> kind <> "CSV" ->
                     empty d = true -> state (app env w s) = s) /\
     (forall kind d, load_of (attempt env w) = Some (kind, d) ->
                     df (state (app env w s)) = Some d /\
                     data_source (state (app env w s)) = Some kind)) /\
  (forall w kind d,
     last_load steps None = Some (kind, d) -> kind <> "yFinance" ->
     df s = Some d /\ charts_tab w d s = generic_chart w d s).
Proof.
  intros s.
  assert (Hrec : records_load s (last_load steps None)).
  { apply runs_records. simpl. auto. }
  split; [exact Hrec|]. split; [|split].
  - apply last_load_kind. discriminate.
  - intros env w. rewrite state_run. unfold session_after. repeat split.
    + intros e H. now rewrite H.
    + intros kind d H Hk He. rewrite H. simpl. rewrite He.
      apply String.eqb_neq in Hk. now rewrite Hk.
    + rewrite H. reflexivity.
    + rewrite H. reflexivity.
  - intros w kind d H Hk. rewrite H in Hrec. destruct Hrec as [Hd Hs].
    split; [exact Hd|]. apply charts_tab_other_source.
    rewrite Hs. simpl. now apply String.eqb_neq.
Qed.

Lemma session_source_consistency_witness :
  last_load three_runs None = Some ("API", frame_two_records) /\
  data_source (runs three_runs initial_session) = Some "API" /\
  df (runs three_runs initial_session) = Some frame_two_records.
Proof.
  destruct (session_source_consistency three_runs) as [Hrec _].
  assert (E : last_load three_runs None = Some ("API", frame_two_records))
    by reflexivity.
  rewrite E in Hrec. destruct Hrec as [Hd Hs]. auto.
Defined.

(** C10, as stated, fails: a CSV file that holds only a header line parses
    to an empty frame, and that empty load replaces both the Dataset and the
    source kind of the session. *)
Lemma empty_csv_load_counterexample :
  attempt (env_csv frame_header_only) w_csv = Produced "CSV" frame_header_only /\
  empty frame_header_only = true /\
  state (app (env_csv frame_header_only) w_csv (session_yfinance frame_ohlcv))
  = mkSession (Some frame_header_only) (Some "CSV")
              [("ticker", "AAPL"); ("period", "1mo")] /\
  state (app (env_csv frame_header_only) w_csv (session_yfinance frame_ohlcv))
  <> session_yfinance frame_ohlcv.
Proof.
  repeat split. discriminate.
Qed.

(* ================================================================== *)
(** * Empty results and the validator *)

Lemma empty_iff (d : DataFrame) :
  empty d = true <-> index_len d = 0 \/ series d = [].
Proof.
  unfold empty. rewrite orb_true_iff, !Nat.eqb_eq.
  destruct (series d); simpl; intuition congruence.
Qed.

Lemma validate_dataframe_run (d : option DataFrame) (s : Session) :
  validate_dataframe d s =
    mkRun (if invalid d then [st_warning "No data available to display."] else [])
          s (inr (negb (invalid d))).
Proof.
  destruct d as [d|]; simpl; [|reflexivity].
  destruct (empty d); reflexivity.
Qed.

Lemma main_content_run (env : Env) (w : Widgets) (s : Session) :
  main_content env w s =
    match df s with
    | None => welcome s
    | Some d =>
        if empty d then
          mkRun (st_warning "No data available to display." :: log (welcome s))
                s (inr tt)
        else
          (source_info d ;; data_tab env w d ;; charts_tab w d ;;
           statistics_tab w d) s
    end.
Proof.
  unfold main_content. unfold bind at 1. simpl.
  destruct (df s) as [d|].
  - unfold bind at 1. rewrite validate_dataframe_run. simpl.
    destruct (empty d); simpl.
    + reflexivity.
    + now destruct (bind (source_info d) _ s).
  - now destruct (welcome s).
Qed.

(** C3 (amended). A TimeSeries fetch that succeeds with zero rows is not an
    error for the adapter: the fetch function returns the empty frame and
    reports nothing.  The fetch handler then discards it: the session is left
    as it was and nothing is shown for it, so the run goes on as if no fetch
    had been made.  The validator returns false, with a warning, exactly when
    the session's Dataset is absent or empty (no rows or no columns), and
    true otherwise; the tabs are run only when a Dataset is present and the
    validator has passed it. *)
Theorem empty_fetch_and_validator (env : Env) (w : Widgets) (s : Session)
        (h : History) (d : DataFrame) :
  data_source_selector w = "yFinance" ->
  fetch_stock_button w = true ->
  yf_history env (upper (ticker_input w)) (period_select w) = inr h ->
  reset_index h = inr d ->
  empty d = true ->
  fetch_yfinance_data env (upper (ticker_input w)) (period_select w) s
    = mkRun [] s (inr (Some d)) /\
  sidebar env w s = mkRun [] s (inr tt) /\
  app env w s = main_content env w s /\
  (forall (od : option DataFrame) (s' : Session),
     validate_dataframe od s' =
       mkRun (if invalid od then [st_warning "No data available to display."] else [])
             s' (inr (negb (invalid od))) /\
     (invalid od = true <->
      od = None \/ exists d', od = Some d' /\ (index_len d' = 0 \/ series d' = []))) /\
  (forall (env' : Env) (w' : Widgets) (s' : Session),
     main_content env' w' s' =
       match df s' with
       | None => welcome s'
       | Some d' =>
           if empty d' then
             mkRun (st_warning "No data available to display." :: log (welcome s'))
                   s' (inr tt)
           else
             (source_info d' ;; data_tab env' w' d' ;; charts_tab w' d' ;;
              statistics_tab w' d') s'
       end).
Proof.
  intros Hsel Hbtn Hh Hd He.
  assert (Hf : fetch_yfinance_data env (upper (ticker_input w)) (period_select w) s
               = mkRun [] s (inr (Some d))).
  { unfold fetch_yfinance_data, try_except, bind, call.
    rewrite Hh. simpl. rewrite Hd. reflexivity. }
  assert (Hside : sidebar env w s = mkRun [] s (inr tt)).
  { unfold sidebar. rewrite Hsel, Hbtn. simpl.
    unfold bind. rewrite Hf, He. reflexivity. }
  split; [exact Hf|]. split; [exact Hside|]. split; [|split].
  - unfold app, bind. rewrite Hside. now destruct (main_content env w s).
  - intros od s'. split; [apply validate_dataframe_run|].
    destruct od as [d'|]; simpl.
    + rewrite empty_iff. split.
      * intros H. right. eauto.
      * intros [H|[d0 [E H]]]; [discriminate|]. inversion E. now subst.
    + split; auto.
  - apply main_content_run.
Qed.

Lemma empty_fetch_and_validator_witness :
  fetch_yfinance_data (env_history history_empty) "AAPL" "1mo"
                      (session_yfinance frame_ohlcv)
  = mkRun [] (session_yfinance frame_ohlcv)
          (inr (Some (mkDataFrame 0
                        (mkSeries (LStr "Date") datetime64_ns_tz []
                         :: history_columns history_empty)))) /\
  sidebar (env_history history_empty) w_stock (session_yfinance frame_ohlcv)
  = mkRun [] (session_yfinance frame_ohlcv) (inr tt).
Proof.
  destruct (empty_fetch_and_validator (env_history history_empty) w_stock
              (session_yfinance frame_ohlcv) history_empty
              (mkDataFrame 0
                 (mkSeries (LStr "Date") datetime64_ns_tz []
                  :: history_columns history_empty))
              eq_refl eq_refl eq_refl eq_refl eq_refl) as [Hf [Hs _]].
  split; [exact Hf | exact Hs].
Defined.

(** C3, as stated, fails: on a fresh session an empty TimeSeries result is
    never handed to the validator; no warning is shown, only the welcome
    screen, and the session stays empty. *)
Lemma empty_fetch_counterexample :
  timeseries_adapter (env_history history_empty) (upper (ticker_input w_stock))
                     (period_select w_stock)
  = inr (mkDataFrame 0
           (mkSeries (LStr "Date") datetime64_ns_tz []
            :: history_columns history_empty)) /\
  app (env_history history_empty) w_stock initial_session
  = mkRun [ st_markdown "## Welcome to the Financial Dashboard!";
            st_markdown "### Example Queries" ]
          initial_session (inr tt) /\
  ~ In (st_warning "No data available to display.")
       (log (app (env_history history_empty) w_stock initial_session)).
Proof.
  split; [reflexivity|]. split; [reflexivity|].
  simpl. intros [H|[H|[]]]; discriminate H.
Qed.

(* ================================================================== *)
(** * Further properties of the fetch functions *)

(** X1. [fetch_yfinance_data] never raises and never writes the session.  It
    returns [None] exactly when it has shown a message; it shows at most one,
    and that one is the error naming the ticker. *)
Theorem fetch_yfinance_data_reports (env : Env) (ticker period : string) (s : Session) :
  exists r,
    result (fetch_yfinance_data env ticker period s) = inr r /\
    state (fetch_yfinance_data env ticker period s) = s /\
    (r = None <-> log (fetch_yfinance_data env ticker period s) <> []) /\
    length (log (fetch_yfinance_data env ticker period s)) <= 1 /\
    (forall ev, In ev (log (fetch_yfinance_data env ticker period s)) ->
                exists m, ev = st_error ("Error fetching data for " ++ ticker ++ ": " ++ m)).
Proof.
  unfold fetch_yfinance_data, try_except, bind, call.
  destruct (yf_history env ticker period) as [e|h]; simpl.
  - exists None. split; [reflexivity|]. split; [reflexivity|].
    split; [split; [discriminate | reflexivity]|].
    split; [auto|]. intros ev [H|[]]. subst. eauto.
  - destruct (reset_index h) as [e|d]; simpl.
    + exists None. split; [reflexivity|]. split; [reflexivity|].
      split; [split; [discriminate | reflexivity]|].
      split; [auto|]. intros ev [H|[]]. subst. eauto.
    + exists (Some d). split; [reflexivity|]. split; [reflexivity|].
      split; [split; [discriminate | intros H; now elim H]|].
      split; [auto|]. intros ev [].
Qed.

(** What the except clauses of [fetch_api_data] make of an exception. *)
Lemma api_except_run (e : Exn) (s : Session) :
  match api_except e with
  | Some h =>
      h s = mkRun [st_error (if is_Timeout e
                             then "Request timed out. Please try again."
                             else "API error: " ++ exn_str e)] s (inr None) /\
      is_RequestException e = true
  | None => is_Timeout e = false /\ is_RequestException e = false
  end.
Proof.
  unfold api_except. destruct e; simpl; auto.
Qed.

Lemma fetch_api_data_try (env : Env) (url : string) :
  fetch_api_data env url = try_except (api_try env url) api_except.
Proof. reflexivity. Qed.

(** The three ways [fetch_api_data] can end. *)
Lemma fetch_api_data_cases (env : Env) (url : string) (s : Session) :
  (exists d, fetch_api_data env url s = mkRun [] s (inr (Some d))) \/
  (exists m, fetch_api_data env url s = mkRun [st_error m] s (inr None)) \/
  (exists e, fetch_api_data env url s = mkRun [] s (inl e) /\
             is_RequestException e = false).
Proof.
  rewrite fetch_api_data_try. unfold try_except.
  assert (Hraise : forall e,
             api_try env url s = mkRun [] s (inl e) ->
             (exists m,
                 match api_except e with
                 | Some h => match h s with
                             | mkRun l2 s2 r2 => mkRun ([] ++ l2) s2 r2
                             end
                 | None => mkRun [] s (inl e)
                 end = mkRun [st_error m] s (inr None)) \/
             (match api_except e with
              | Some h => match h s with
                          | mkRun l2 s2 r2 => mkRun ([] ++ l2) s2 r2
                          end
              | None => mkRun [] s (inl e)
              end = mkRun [] s (inl e) /\ is_RequestException e = false)).
  { intros e _. pose proof (api_except_run e s) as H.
    destruct (api_except e) as [h|].
    - destruct H as [H _]. rewrite H. left. eexists. reflexivity.
    - right. tauto. }
  assert (Hbody :
            (exists d, api_try env url s = mkRun [] s (inr (Some d))) \/
            (exists m, api_try env url s = mkRun [st_error m] s (inr None)) \/
            (exists e, api_try env url s = mkRun [] s (inl e))).
  { unfold api_try, bind, call.
    destruct (requests_get env url) as [e|resp]; simpl; [eauto|].
    destruct (raise_for_status resp) as [e|u]; simpl; [eauto|].
    unfold response_json. destruct (body_json resp) as [data|]; simpl; [|eauto].
    destruct data; simpl; eauto.
    destruct (pd_DataFrame items) as [e|d]; simpl; eauto. }
  destruct Hbody as [[d H]|[[m H]|[e H]]]; rewrite H.
  - left. eauto.
  - right. left. eauto.
  - destruct (Hraise e H) as [[m Hm]|[Hm Hn]]; rewrite ?Hm.
    + right. left. eauto.
    + right. right. eauto.
Qed.

(** X2. [fetch_api_data] never writes the session, and its messages follow
    its result: a frame comes back with no message, [None] comes back with
    exactly one error message, and an exception that escapes it is not a
    [RequestException] and leaves no message. *)
Theorem fetch_api_data_reports (env : Env) (url : string) (s : Session) :
  state (fetch_api_data env url s) = s /\
  (forall d, result (fetch_api_data env url s) = inr (Some d) ->
             log (fetch_api_data env url s) = []) /\
  (result (fetch_api_data env url s) = inr None ->
   exists m, log (fetch_api_data env url s) = [st_error m]) /\
  (forall e, result (fetch_api_data env url s) = inl e ->
             log (fetch_api_data env url s) = [] /\
             is_RequestException e = false).
Proof.
  destruct (fetch_api_data_cases env url s) as [[d H]|[[m H]|[e [H Hn]]]];
    rewrite H; simpl.
  - split; [reflexivity|]. split; [auto|]. split; [discriminate|]. discriminate.
  - split; [reflexivity|]. split; [discriminate|]. split; [eauto|]. discriminate.
  - split; [reflexivity|]. split; [discriminate|]. split; [discriminate|].
    intros e' E. inversion E. subst. auto.
Qed.

Lemma fetch_api_data_reports_witness :
  exists m,
    log (fetch_api_data (env_json (JInt 42)) "https://api.example.com/data"
                        initial_session) = [st_error m].
Proof.
  destruct (fetch_api_data_reports (env_json (JInt 42))
              "https://api.example.com/data" initial_session) as [_ [_ [H _]]].
  apply H. reflexivity.
Defined.

(** X3. An exception raised by the request is routed by the except clauses
    in their order: a timeout gets the timeout message although it is a
    [RequestException] too, any other [RequestException] gets the API error
    message with its text, and anything else escapes the function. *)
Theorem request_exception_routing (env : Env) (url : string) (s : Session) (e : Exn) :
  requests_get env url = inl e ->
  (is_Timeout e = true ->
   is_RequestException e = true /\
   fetch_api_data env url s =
     mkRun [st_error "Request timed out. Please try again."] s (inr None)) /\
  (is_Timeout e = false -> is_RequestException e = true ->
   fetch_api_data env url s =
     mkRun [st_error ("API error: " ++ exn_str e)] s (inr None)) /\
  (is_RequestException e = false ->
   fetch_api_data env url s = mkRun [] s (inl e)).
Proof.
  intros Hget.
  assert (Hbody : api_try env url s = mkRun [] s (inl e)).
  { unfold api_try, bind, call. now rewrite Hget. }
  rewrite fetch_api_data_try. unfold try_except. rewrite Hbody.
  destruct e; simpl; repeat split; auto; discriminate.
Qed.

Lemma request_exception_routing_witness :
  fetch_api_data env_timeout "https://api.example.com/data" initial_session
  = mkRun [st_error "Request timed out. Please try again."] initial_session (inr None).
Proof.
  destruct (request_exception_routing env_timeout "https://api.example.com/data"
              initial_session (Timeout "read timed out") eq_refl) as [H _].
  destruct (H eq_refl) as [_ E]. exact E.
Defined.

(** X4. A response with a 4xx or 5xx status is an API error whatever its
    body holds: no frame is built from it. *)
Theorem error_status_is_api_error (env : Env) (url : string) (s : Session)
        (resp : Response) :
  requests_get env url = inr resp ->
  400 <= status_code resp < 600 ->
  exists m,
    fetch_api_data env url s = mkRun [st_error ("API error: " ++ m)] s (inr None).
Proof.
  intros Hget [Hlo Hhi].
  assert (Hst : raise_for_status resp
                = inl (HTTPError (str_of_nat (status_code resp) ++ " Error"))).
  { unfold raise_for_status.
    apply Nat.leb_le in Hlo. apply Nat.ltb_lt in Hhi. now rewrite Hlo, Hhi. }
  exists (str_of_nat (status_code resp) ++ " Error").
  rewrite fetch_api_data_try. unfold try_except, api_try, bind, call.
  rewrite Hget. simpl. rewrite Hst. reflexivity.
Qed.

Lemma error_status_is_api_error_witness :
  exists m,
    fetch_api_data (env_status 404 json_two_records) "https://api.example.com/data"
                   initial_session
    = mkRun [st_error ("API error: " ++ m)] initial_session (inr None).
Proof.
  apply (error_status_is_api_error (env_status 404 json_two_records)
           "https://api.example.com/data" initial_session
           (mkResponse 404 (Some json_two_records)) eq_refl).
  split; [apply Nat.leb_le | apply Nat.ltb_lt]; reflexivity.
Defined.

(* ================================================================== *)
(** * Further properties of the sidebar *)

(** X5. An API result that is an empty frame is dropped without a word: the
    handler shows nothing and leaves the session as it was. *)
Theorem api_empty_result_discarded (env : Env) (w : Widgets) (s : Session)
        (d : DataFrame) :
  data_source_selector w = "API Link" ->
  fetch_api_button w = true ->
  api_url_input w <> "" ->
  result (fetch_api_data env (api_url_input w) s) = inr (Some d) ->
  empty d = true ->
  sidebar env w s = mkRun [] s (inr tt).
Proof.
  intros Hsel Hbtn Hurl Hres He.
  apply String.eqb_neq in Hurl.
  unfold sidebar. rewrite Hsel, Hbtn, Hurl. simpl. unfold bind.
  destruct (fetch_api_data_cases env (api_url_input w) s)
    as [[d' H]|[[m H]|[e [H _]]]]; rewrite H in *; simpl in *; try discriminate.
  inversion Hres. subst d'. now rewrite He.
Qed.

(** The empty list and the empty object are such results. *)
Lemma api_empty_result_discarded_witness :
  sidebar (env_json (JArr [])) w_api (session_yfinance frame_ohlcv)
  = mkRun [] (session_yfinance frame_ohlcv) (inr tt) /\
  sidebar (env_json (JObj [])) w_api (session_yfinance frame_ohlcv)
  = mkRun [] (session_yfinance frame_ohlcv) (inr tt).
Proof.
  split.
  - apply (api_empty_result_discarded (env_json (JArr [])) w_api
             (session_yfinance frame_ohlcv) (mkDataFrame 0 []));
      try reflexivity. discriminate.
  - apply (api_empty_result_discarded (env_json (JObj [])) w_api
             (session_yfinance frame_ohlcv) (mkDataFrame 1 []));
      try reflexivity. discriminate.
Defined.

(** X6. When no fetch is asked for and no file is uploaded, the sidebar
    consults no external service and leaves the session alone.  The only
    thing it may show is the request for a URL, exactly when the API fetch
    button is pressed with an empty URL. *)
Theorem idle_sidebar (env : Env) (w : Widgets) (s : Session) :
  (data_source_selector w = "yFinance" /\ fetch_stock_button w = false) \/
  (data_source_selector w = "API Link" /\
   (fetch_api_button w = false \/ api_url_input w = "")) \/
  (data_source_selector w <> "yFinance" /\ data_source_selector w <> "API Link" /\
   csv_uploader w = None) ->
  result (sidebar env w s) = inr tt /\
  state (sidebar env w s) = s /\
  (forall env', sidebar env' w s = sidebar env w s) /\
  (log (sidebar env w s) = [st_warning "Please enter an API URL"] \/
   log (sidebar env w s) = []) /\
  (log (sidebar env w s) <> [] <->
   data_source_selector w = "API Link" /\ fetch_api_button w = true /\
   api_url_input w = "").
Proof.
  unfold sidebar.
  intros [[Hsel Hbtn]|[[Hsel Hidle]|[N1 [N2 Hf]]]].
  - rewrite Hsel, Hbtn. simpl.
    split; [reflexivity|]. split; [reflexivity|]. split; [reflexivity|].
    split; [auto|]. split.
    + intros Hne. now elim Hne.
    + intros [Hc _]. discriminate Hc.
  - rewrite Hsel. simpl.
    destruct (fetch_api_button w) eqn:Hbtn.
    + destruct Hidle as [Hc|Hurl]; [discriminate|]. rewrite Hurl. simpl.
      split; [reflexivity|]. split; [reflexivity|]. split; [reflexivity|].
      split; [auto|]. split; [auto | discriminate].
    + split; [reflexivity|]. split; [reflexivity|]. split; [reflexivity|].
      split; [auto|]. split.
      * intros Hne. now elim Hne.
      * intros [_ [Hc _]]. discriminate.
  - apply String.eqb_neq in N1. pose proof N2 as N2'. apply String.eqb_neq in N2.
    rewrite N1, N2, Hf. simpl.
    split; [reflexivity|]. split; [reflexivity|]. split; [reflexivity|].
    split; [auto|]. split.
    + intros Hne. now elim Hne.
    + intros [Hc _]. contradiction.
Qed.

Lemma idle_sidebar_witness :
  sidebar env_timeout untouched (session_yfinance frame_ohlcv)
  = mkRun [] (session_yfinance frame_ohlcv) (inr tt).
Proof.
  assert (N1 : data_source_selector untouched <> "yFinance") by discriminate.
  assert (N2 : data_source_selector untouched <> "API Link") by discriminate.
  destruct (idle_sidebar env_timeout untouched (session_yfinance frame_ohlcv)
              (or_intror (or_intror (conj N1 (conj N2 eq_refl)))))
    as [Hr [Hs [_ [[Hl|Hl] _]]]].
  - discriminate Hl.
  - reflexivity.
Defined.

(** X7. A stock fetch that returns rows stores the frame, the kind yFinance
    and the ticker in upper case with the period, and reports the number of
    records; in the same run the banner of the main content names that
    ticker, that period and that number. *)
Theorem stock_load_and_banner (env : Env) (w : Widgets) (s : Session)
        (h : History) (d : DataFrame) :
  data_source_selector w = "yFinance" ->
  fetch_stock_button w = true ->
  yf_history env (upper (ticker_input w)) (period_select w) = inr h ->
  reset_index h = inr d ->
  empty d = false ->
  sidebar env w s =
    mkRun [st_success ("Loaded " ++ str_of_nat (len d) ++ " records")]
          (mkSession (Some d) (Some "yFinance")
                     [("ticker", upper (ticker_input w)); ("period", period_select w)])
          (inr tt) /\
  exists rest,
    log (app env w s) =
      st_success ("Loaded " ++ str_of_nat (len d) ++ " records")
      :: st_info (":material/show_chart: **" ++ upper (ticker_input w) ++ "** | "
                  ++ "Period: " ++ period_select w ++ " | "
                  ++ str_of_nat (len d) ++ " records")
      :: rest.
Proof.
  intros Hsel Hbtn Hh Hd He.
  assert (Hf : fetch_yfinance_data env (upper (ticker_input w)) (period_select w) s
               = mkRun [] s (inr (Some d))).
  { unfold fetch_yfinance_data, try_except, bind, call.
    rewrite Hh. simpl. rewrite Hd. reflexivity. }
  assert (Hside : sidebar env w s =
    mkRun [st_success ("Loaded " ++ str_of_nat (len d) ++ " records")]
          (mkSession (Some d) (Some "yFinance")
                     [("ticker", upper (ticker_input w)); ("period", period_select w)])
          (inr tt)).
  { unfold sidebar. rewrite Hsel, Hbtn. simpl.
    unfold bind at 1. rewrite Hf, He. reflexivity. }
  split; [exact Hside|].
  unfold app. rewrite (bind_inr _ _ _ _ _ _ Hside). simpl.
  rewrite main_content_run. simpl. rewrite He.
  erewrite bind_inr by reflexivity. simpl. eauto.
Qed.

Lemma stock_load_and_banner_witness :
  exists rest,
    log (app (env_history history_ohlcv) w_stock initial_session) =
      st_success "Loaded 2 records"
      :: st_info ":material/show_chart: **AAPL** | Period: 1mo | 2 records"
      :: rest.
Proof.
  destruct (stock_load_and_banner (env_history history_ohlcv) w_stock
              initial_session history_ohlcv frame_ohlcv
              eq_refl eq_refl eq_refl eq_refl eq_refl) as [_ [rest H]].
  exists rest. exact H.
Defined.

Lemma upper_ascii_idempotent (c : ascii) : upper_ascii (upper_ascii c) = upper_ascii c.
Proof.
  destruct c as [[] [] [] [] [] [] [] []]; reflexivity.
Qed.

Lemma upper_idempotent (t : string) : upper (upper t) = upper t.
Proof.
  induction t as [|c t IH]; simpl; [reflexivity|].
  now rewrite upper_ascii_idempotent, IH.
Qed.

Lemma load_of_Some (a : Attempt) (kind : string) (d : DataFrame) :
  load_of a = Some (kind, d) ->
  a = Produced kind d /\ (kind = "CSV" \/ empty d = false).
Proof.
  destruct a as [|e|k d']; simpl; try discriminate.
  destruct (k =? "CSV") eqn:Ek; simpl.
  - intros H. inversion H. subst. apply String.eqb_eq in Ek. auto.
  - destruct (empty d') eqn:Ee; simpl; [discriminate|].
    intros H. inversion H. subst. auto.
Qed.

Lemma ticker_recorded_after (env : Env) (w : Widgets) (s : Session) :
  ticker_recorded s -> ticker_recorded (session_after env w s).
Proof.
  intros H. unfold session_after.
  destruct (load_of (attempt env w)) as [[kind d]|]; [|assumption].
  intros Hk. simpl in Hk. inversion Hk. subst kind. simpl.
  exists (upper (ticker_input w)), (period_select w).
  split; [reflexivity | apply upper_idempotent].
Qed.

Lemma empty_only_from_csv_after (env : Env) (w : Widgets) (s : Session) :
  empty_only_from_csv s -> empty_only_from_csv (session_after env w s).
Proof.
  intros H. unfold session_after.
  destruct (load_of (attempt env w)) as [[kind d]|] eqn:El; [|assumption].
  apply load_of_Some in El. destruct El as [_ [Hk|He]].
  - subst kind. intros d' _ _. reflexivity.
  - intros d' Hd He'. simpl in Hd. inversion Hd. subst d'. congruence.
Qed.

Lemma runs_invariant (P : Session -> Prop) :
  (forall env w s, P s -> P (session_after env w s)) ->
  forall steps s, P s -> P (runs steps s).
Proof.
  intros Hstep steps. induction steps as [|[env w] steps IH]; intros s Hs; simpl.
  - assumption.
  - apply IH. rewrite state_run. now apply Hstep.
Qed.

(** X8. Whenever a session reached from the initial one has the kind
    yFinance, its ticker data holds the ticker, in upper case, and the
    period of the fetch that produced the Dataset; the banner shows them and
    never its N/A fallbacks. *)
Theorem ticker_data_recorded (steps : list (Env * Widgets)) (d : DataFrame) :
  data_source (runs steps initial_session) = Some "yFinance" ->
  exists t p,
    ticker_data (runs steps initial_session) = [("ticker", t); ("period", p)] /\
    upper t = t /\
    source_info d (runs steps initial_session) =
      mkRun [st_info (":material/show_chart: **" ++ t ++ "** | "
                      ++ "Period: " ++ p ++ " | "
                      ++ str_of_nat (len d) ++ " records")]
            (runs steps initial_session) (inr tt).
Proof.
  intros Hk.
  assert (Hinv : ticker_recorded (runs steps initial_session)).
  { apply runs_invariant.
    - intros env w s. apply ticker_recorded_after.
    - intros H. discriminate H. }
  destruct (Hinv Hk) as [t [p [Ht Hu]]].
  exists t, p. split; [exact Ht|]. split; [exact Hu|].
  unfold source_info, bind, get. simpl. rewrite Hk. simpl.
  rewrite Ht. reflexivity.
Qed.

Lemma ticker_data_recorded_witness :
  exists t p,
    ticker_data (runs one_stock_run initial_session) = [("ticker", t); ("period", p)] /\
    upper t = t /\
    source_info frame_ohlcv (runs one_stock_run initial_session) =
      mkRun [st_info (":material/show_chart: **" ++ t ++ "** | "
                      ++ "Period: " ++ p ++ " | "
                      ++ str_of_nat (len frame_ohlcv) ++ " records")]
            (runs one_stock_run initial_session) (inr tt).
Proof.
  apply (ticker_data_recorded one_stock_run frame_ohlcv). reflexivity.
Defined.

(** X9. In a session reached from the initial one, a Dataset that was not
    loaded from a CSV file is never empty: it passes the validator, and the
    main content shows the banner and the three tabs for it. *)
Theorem fetched_dataset_is_shown (steps : list (Env * Widgets))
        (env : Env) (w : Widgets) (d : DataFrame) :
  df (runs steps initial_session) = Some d ->
  data_source (runs steps initial_session) <> Some "CSV" ->
  empty d = false /\
  validate_dataframe (Some d) (runs steps initial_session)
    = mkRun [] (runs steps initial_session) (inr true) /\
  main_content env w (runs steps initial_session) =
    (source_info d ;; data_tab env w d ;; charts_tab w d ;; statistics_tab w d)
      (runs steps initial_session).
Proof.
  intros Hd Hk.
  assert (Hinv : empty_only_from_csv (runs steps initial_session)).
  { apply runs_invariant.
    - intros env' w' s. apply empty_only_from_csv_after.
    - intros d' H. discriminate H. }
  assert (He : empty d = false).
  { destruct (empty d) eqn:E; [|reflexivity].
    exfalso. apply Hk. now apply (Hinv d). }
  split; [exact He|]. split.
  - simpl. now rewrite He.
  - rewrite main_content_run, Hd, He. reflexivity.
Qed.

Lemma fetched_dataset_is_shown_witness :
  empty frame_ohlcv = false /\
  main_content env_timeout untouched (runs one_stock_run initial_session) =
    (source_info frame_ohlcv ;; data_tab env_timeout untouched frame_ohlcv ;;
     charts_tab untouched frame_ohlcv ;; statistics_tab untouched frame_ohlcv)
      (runs one_stock_run initial_session).
Proof.
  destruct (fetched_dataset_is_shown one_stock_run env_timeout untouched frame_ohlcv
              eq_refl) as [He [_ Hm]].
  - discriminate.
  - split; [exact He | exact Hm].
Defined.

(** X10. The CSV handler never raises.  A parser failure is reported with
    its text and leaves the session alone; whatever frame the parser returns
    is stored with the kind CSV, the ticker data is kept, and the number of
    rows and the file name are reported. *)
Theorem csv_upload_handled (env : Env) (w : Widgets) (s : Session) (f : UploadedFile) :
  data_source_selector w <> "yFinance" ->
  data_source_selector w <> "API Link" ->
  csv_uploader w = Some f ->
  result (sidebar env w s) = inr tt /\
  (forall e, read_csv env f = inl e ->
     sidebar env w s =
       mkRun [st_error ("Error loading file: " ++ exn_str e)] s (inr tt)) /\
  (forall d, read_csv env f = inr d ->
     sidebar env w s =
       mkRun [st_success ("Loaded " ++ str_of_nat (len d) ++ " rows from "
                          ++ file_name f)]
             (mkSession (Some d) (Some "CSV") (ticker_data s)) (inr tt)).
Proof.
  intros H1 H2 Hf. apply String.eqb_neq in H1, H2.
  unfold sidebar. rewrite H1, H2, Hf.
  unfold try_except, bind, call.
  destruct (read_csv env f) as [e|d]; simpl.
  - split; [reflexivity|]. split; [|discriminate].
    intros e' E. inversion E. reflexivity.
  - split; [reflexivity|]. split; [discriminate|].
    intros d' E. inversion E. reflexivity.
Qed.

Lemma csv_upload_handled_witness :
  sidebar env_csv_error w_csv (session_yfinance frame_ohlcv) =
    mkRun [st_error "Error loading file: No columns to parse from file"]
          (session_yfinance frame_ohlcv) (inr tt) /\
  sidebar (env_csv frame_two_numeric) w_csv (session_yfinance frame_ohlcv) =
    mkRun [st_success "Loaded 2 rows from data.csv"]
          (mkSession (Some frame_two_numeric) (Some "CSV")
                     [("ticker", "AAPL"); ("period", "1mo")])
          (inr tt).
Proof.
  assert (N1 : data_source_selector w_csv <> "yFinance") by discriminate.
  assert (N2 : data_source_selector w_csv <> "API Link") by discriminate.
  split.
  - exact (proj1 (proj2 (csv_upload_handled env_csv_error w_csv
                           (session_yfinance frame_ohlcv)
                           (mkUploadedFile "data.csv" "a,b") N1 N2 eq_refl))
                 _ eq_refl).
  - exact (proj2 (proj2 (csv_upload_handled (env_csv frame_two_numeric) w_csv
                           (session_yfinance frame_ohlcv)
                           (mkUploadedFile "data.csv" "a,b") N1 N2 eq_refl))
                 _ eq_refl).
Defined.

Lemma session_after_idempotent (env : Env) (w : Widgets) (s : Session) :
  session_after env w (session_after env w s) = session_after env w s.
Proof.
  unfold session_after.
  destruct (load_of (attempt env w)) as [[kind d]|]; [|reflexivity].
  simpl. destruct (kind =? "yFinance"); reflexivity.
Qed.

(** X11. Running the script again with the same widget values and the same
    outcomes of the external calls leaves the session as the first run left
    it. *)
Theorem rerun_keeps_session (env : Env) (w : Widgets) (s : Session) :
  state (app env w (state (app env w s))) = state (app env w s).
Proof.
  rewrite !state_run. apply session_after_idempotent.
Qed.

(** X12. Only the three handlers of the sidebar write the session: the two
    fetch functions, the validator and the whole main content leave it as
    they found it, also when they end in an exception. *)
Theorem rendering_reads_only (env : Env) (w : Widgets) (s : Session) :
  state (main_content env w s) = s /\
  (forall d, state (validate_dataframe d s) = s) /\
  (forall ticker period, state (fetch_yfinance_data env ticker period s) = s) /\
  (forall url, state (fetch_api_data env url s) = s) /\
  state (app env w s) = state (sidebar env w s).
Proof.
  split; [apply keeps_main_content|].
  split; [intros d; apply keeps_validate_dataframe|].
  split; [intros t p; apply keeps_fetch_yfinance_data|].
  split; [intros url; apply keeps_fetch_api_data|].
  apply state_app.
Qed.

(* ================================================================== *)
(** * Further properties of the data tab *)

Lemma multiselect_incl (options default : list Label) (chosen : option (list Label)) :
  incl default options -> incl (multiselect options default chosen) options.
Proof.
  intros Hd. destruct chosen as [cs|]; simpl; [|assumption].
  intros l H. apply filter_In in H. destruct H as [_ H]. now apply mem_In.
Qed.

Lemma firstn_subset {A} (n : nat) (l : list A) : incl (firstn n l) l.
Proof.
  revert l. induction n as [|n IH]; intros [|a l]; simpl;
    try (intros y Hy; now destruct Hy).
  intros y [H|H]; [now left | right; now apply IH].
Qed.

Lemma firstn_min_ten {A} (l : list A) :
  firstn (Nat.min 10 (length l)) l = firstn 10 l.
Proof.
  destruct (Nat.le_gt_cases (length l) 10) as [H|H].
  - rewrite Nat.min_r by assumption.
    rewrite firstn_all, firstn_all2; auto.
  - rewrite Nat.min_l by lia. reflexivity.
Qed.

(** X13. The data tab previews and offers for download one and the same
    frame: the selected columns, in the order of the selection, each with
    the values it has in the Dataset and with all its rows.  The download is
    named after the time stamp.  With nothing selected it shows a warning
    and offers no download. *)
Theorem data_tab_export (env : Env) (w : Widgets) (d : DataFrame) (s : Session) :
  let selected :=
    multiselect (columns d)
      (firstn (Nat.min 10 (length (columns d))) (columns d)) (column_selector w) in
  incl selected (columns d) /\
  (selected = [] ->
   data_tab env w d s =
     mkRun [st_warning "Please select at least one column to display"] s (inr tt)) /\
  (selected <> [] ->
   data_tab env w d s =
     mkRun [ st_dataframe (Plain (getitems d selected));
             st_download_button (Plain (getitems d selected))
                                ("export_" ++ now_stamp env ++ ".csv") ]
           s (inr tt) /\
   columns (getitems d selected) = selected /\
   len (getitems d selected) = len d /\
   incl (series (getitems d selected)) (series d)).
Proof.
  intros selected.
  assert (Hincl : incl selected (columns d)).
  { apply multiselect_incl. rewrite firstn_min_ten.
    apply firstn_subset. }
  split; [exact Hincl|].
  unfold data_tab. fold selected.
  destruct selected as [|l ls] eqn:E; split; intros H; try congruence.
  - reflexivity.
  - split; [reflexivity|]. split; [now apply columns_getitems|].
    split; [reflexivity|]. apply pick_incl.
Qed.

Lemma data_tab_export_witness :
  data_tab env_timeout untouched frame_two_numeric initial_session =
    mkRun [ st_dataframe (Plain frame_two_numeric);
            st_download_button (Plain frame_two_numeric)
                               "export_20240101_000000.csv" ]
          initial_session (inr tt).
Proof.
  destruct (data_tab_export env_timeout untouched frame_two_numeric initial_session)
    as [_ [_ H]].
  destruct H as [H _]; [discriminate | exact H].
Defined.

(** X14. With the column selector untouched, the preview and the download
    hold the first ten columns of the Dataset and no others; with at most ten
    uniquely labelled columns that is the whole Dataset. *)
Theorem default_export_first_ten (env : Env) (w : Widgets) (d : DataFrame) (s : Session) :
  column_selector w = None ->
  columns d <> [] ->
  data_tab env w d s =
    mkRun [ st_dataframe (Plain (getitems d (firstn 10 (columns d))));
            st_download_button (Plain (getitems d (firstn 10 (columns d))))
                               ("export_" ++ now_stamp env ++ ".csv") ]
          s (inr tt) /\
  columns (getitems d (firstn 10 (columns d))) = firstn 10 (columns d) /\
  length (columns (getitems d (firstn 10 (columns d)))) = Nat.min 10 (length (columns d)) /\
  (length (columns d) <= 10 -> NoDup (columns d) ->
   getitems d (firstn 10 (columns d)) = d).
Proof.
  intros Hsel Hne.
  assert (Hcols : columns (getitems d (firstn 10 (columns d))) = firstn 10 (columns d)).
  { apply columns_getitems. apply firstn_subset. }
  split; [|split; [exact Hcols|split]].
  - unfold data_tab. rewrite Hsel. simpl multiselect. rewrite firstn_min_ten.
    destruct (columns d) as [|l ls] eqn:E; [congruence|]. reflexivity.
  - rewrite Hcols. apply length_firstn.
  - intros Hlen Hnd. rewrite firstn_all2 by assumption. now apply getitems_all.
Qed.

Lemma default_export_first_ten_witness :
  columns (getitems frame_twelve (firstn 10 (columns frame_twelve)))
  = map (fun i => LStr ("c" ++ str_of_nat i)) (seq 0 10) /\
  length (columns frame_twelve) = 12.
Proof.
  assert (Hne : columns frame_twelve <> []) by discriminate.
  destruct (default_export_first_ten env_timeout untouched frame_twelve
              initial_session eq_refl Hne) as [_ [H _]].
  split; [rewrite H|]; reflexivity.
Defined.

(* ================================================================== *)
(** * Further properties of the charts tab *)

Lemma NoDup_map_filter {A B} (g : A -> B) (f : A -> bool) (l : list A) :
  NoDup (map g l) -> NoDup (map g (filter f l)).
Proof.
  induction l as [|a l IH]; simpl; intros H; [constructor|].
  inversion H as [|x xs Hnotin Hnd]; subst.
  destruct (f a); simpl; [|auto].
  constructor; [|auto].
  intros Hin. apply Hnotin. apply in_map_iff in Hin.
  destruct Hin as [b [E Hb]]. apply filter_In in Hb. destruct Hb as [Hb _].
  rewrite <- E. now apply in_map.
Qed.

Lemma selected_NoDup (sel : Selector) (d : DataFrame) :
  NoDup (columns d) -> NoDup (columns (select_dtypes [sel] d)).
Proof.
  intros H. unfold columns, select_dtypes. simpl. now apply NoDup_map_filter.
Qed.

Lemma selected_disjoint (sel sel' : Selector) (d : DataFrame) (l : Label) :
  NoDup (columns d) -> sel <> sel' ->
  In l (columns (select_dtypes [sel] d)) ->
  ~ In l (columns (select_dtypes [sel'] d)).
Proof.
  intros Hnd Hne H H'.
  apply in_selected in H. destruct H as [c [Hc [Hn Hm]]]. subst l.
  apply (selected_iff d Hnd sel' c Hc) in H'.
  destruct sel, sel', (dtype c); simpl in *; congruence.
Qed.

(** X15. With unique column labels the options of the x-axis select box are
    distinct: every column that is Temporal, Numeric or Categorical appears
    exactly once, the Temporal ones first, and nothing else appears. *)
Theorem x_options_distinct (d : DataFrame) :
  NoDup (columns d) ->
  NoDup (x_options d) /\
  (forall l, In l (x_options d) <->
             In l (columns d) /\ ~ has_tag d l Unsupported) /\
  length (x_options d) <= length (columns d).
Proof.
  intros Hnd.
  assert (Hx : NoDup (x_options d)).
  { unfold x_options, datetime_cols, numeric_cols, object_cols.
    apply NoDup_app; [now apply selected_NoDup| |].
    - apply NoDup_app; try now apply selected_NoDup.
      intros l. apply selected_disjoint; [assumption|discriminate].
    - intros l H H'. apply in_app_or in H'. destruct H' as [H'|H'].
      + now apply (selected_disjoint sel_datetime64 sel_number d l Hnd).
      + now apply (selected_disjoint sel_datetime64 sel_object d l Hnd). }
  split; [exact Hx|]. split.
  - intros l. split.
    + intros H. split; [now apply x_options_incl|].
      intros [_ [Hn [Ht Ho]]]. unfold x_options in H.
      apply in_app_or in H. destruct H as [H|H]; [contradiction|].
      apply in_app_or in H. destruct H as [H|H]; contradiction.
    + intros [Hc Hu]. apply in_columns in Hc. destruct Hc as [c [Hc Hn]]. subst l.
      unfold x_options. rewrite !in_app_iff.
      pose proof (has_tag_iff d Hnd c) as Ht.
      destruct (tag_of_dtype (dtype c)) eqn:E.
      * right. left. now apply (Ht Numeric Hc).
      * left. now apply (Ht Temporal Hc).
      * right. right. now apply (Ht Categorical Hc).
      * exfalso. apply Hu. now apply (Ht Unsupported Hc).
  - apply NoDup_incl_length; [exact Hx | apply x_options_incl].
Qed.

Lemma x_options_distinct_witness :
  NoDup (x_options frame_abc) /\ length (x_options frame_abc) <= 4.
Proof.
  destruct (x_options_distinct frame_abc frame_abc_unique) as [H [_ Hl]].
  split; [exact H | exact Hl].
Defined.

(** The colour argument: the option that reads [None] stands for no colour. *)
Lemma colour_argument (colour : option Label) :
  match colour with
  | Some (LStr "None") => None
  | _ => colour
  end =
  match colour with
  | Some l => if Label_eqb l (LStr "None") then None else Some l
  | None => None
  end.
Proof.
  destruct colour as [[t|n]|]; try reflexivity.
  destruct t as [|[[] [] [] [] [] [] [] []] t]; try reflexivity.
  destruct t as [|[[] [] [] [] [] [] [] []] t]; try reflexivity.
  destruct t as [|[[] [] [] [] [] [] [] []] t]; try reflexivity.
  destruct t as [|[[] [] [] [] [] [] [] []] t]; try reflexivity.
  destruct t; reflexivity.
Qed.

Lemma selectbox_some (options : list Label) (chosen : option Label) :
  options <> [] -> exists l, selectbox options chosen = Some l /\ In l options.
Proof.
  intros Hne.
  destruct (selectbox options chosen) as [l|] eqn:E.
  - exists l. split; [reflexivity|]. eapply selectbox_mem; eauto.
  - exfalso. unfold selectbox in E.
    destruct chosen as [c|]; [destruct (mem c options)|];
      try discriminate; destruct options; simpl in E; congruence.
Qed.

Lemma px_kind_of_chart (chosen : option Label) :
  In (px_kind_of (selectbox chart_types chosen)) [px_line; px_bar; px_scatter; px_area].
Proof.
  destruct (selectbox_some chart_types chosen) as [l [E H]]; [discriminate|].
  rewrite E. simpl in H.
  destruct H as [H|[H|[H|[H|[]]]]]; subst l; simpl; auto.
Qed.

(** X16. Whatever the widgets hold, a figure drawn by the generic chart
    builder is one of the four chart kinds over the Dataset itself; its y
    column is a Numeric column, its x column is one of the x options, and
    its colour, if any, is an object column.  A column labelled [None] is
    never used for colouring: choosing it reads as no colour. *)
Theorem generic_chart_axes (w : Widgets) (d : DataFrame) (s : Session)
        (kind : PxKind) (d' : DataFrame) (x y colour : option Label) :
  In (st_plotly_chart (PxFigure kind d' x y colour)) (log (generic_chart w d s)) ->
  d' = d /\
  In kind [px_line; px_bar; px_scatter; px_area] /\
  (exists l, y = Some l /\ In l (numeric_cols d)) /\
  (exists l, x = Some l /\ In l (x_options d)) /\
  (colour = None \/
   exists l, colour = Some l /\ In l (object_cols d) /\ l <> LStr "None").
Proof.
  unfold generic_chart.
  destruct (numeric_cols d) as [|n ns] eqn:En.
  { simpl. intros [H|[]]. discriminate H. }
  rewrite colour_argument.
  destruct (selectbox_some (numeric_cols d) (y_axis w)) as [yl [Ey Hy]];
    [rewrite En; discriminate|].
  destruct (selectbox_some (x_options d) (x_axis w)) as [xl [Ex Hx]].
  { unfold x_options. rewrite En. destruct (datetime_cols d); discriminate. }
  destruct (selectbox_some (color_options d) (color_by w)) as [cl [Ec Hc]];
    [discriminate|].
  unfold y_column, x_column. rewrite Ey, Ex, Ec.
  unfold try_except, bind, call.
  destruct (px _ d (Some xl) (Some yl) _) as [e|fig] eqn:Epx; simpl.
  { intros [H|[]]. discriminate H. }
  intros [H|[]]. inversion H. subst fig. clear H.
  unfold px in Epx.
  match type of Epx with
  | (if ?b then _ else _) = _ => destruct b; [|discriminate]
  end.
  inversion Epx. subst.
  split; [reflexivity|]. split; [exact (px_kind_of_chart _)|].
  split; [exists yl; split; [reflexivity | rewrite En in Hy; exact Hy]|].
  split; [exists xl; split; [reflexivity | exact Hx]|].
  destruct (Label_eqb_spec cl (LStr "None")) as [E|N]; [now left|].
  right. exists cl. split; [reflexivity|]. split; [|assumption].
  destruct Hc as [Hc|Hc]; [congruence | assumption].
Qed.

(** A column labelled [None], chosen for colouring, gives no colour. *)
Lemma generic_chart_axes_witness :
  log (generic_chart w_colour_none frame_none_label initial_session)
  = [st_plotly_chart
       (PxFigure px_line frame_none_label (Some (LStr "n")) (Some (LStr "n")) None)] /\
  In (LStr "n") (numeric_cols frame_none_label).
Proof.
  assert (E : log (generic_chart w_colour_none frame_none_label initial_session)
              = [st_plotly_chart
                   (PxFigure px_line frame_none_label (Some (LStr "n"))
                             (Some (LStr "n")) None)]) by reflexivity.
  split; [exact E|].
  destruct (generic_chart_axes w_colour_none frame_none_label initial_session
              px_line frame_none_label (Some (LStr "n")) (Some (LStr "n")) None)
    as [_ [_ [[l [Hl Hin]] _]]].
  - rewrite E. now left.
  - inversion Hl. subst l. exact Hin.
Defined.

Lemma source_info_run (d : DataFrame) (s : Session) :
  exists banner, source_info d s = mkRun [st_info banner] s (inr tt).
Proof.
  unfold source_info, bind, get. simpl.
  destruct (opt_eqb (data_source s) "yFinance"); simpl; eauto.
Qed.

Lemma data_tab_run (env : Env) (w : Widgets) (d : DataFrame) (s : Session) :
  exists l, data_tab env w d s = mkRun l s (inr tt) /\
            forall ev, In ev l -> forall body, ev <> st_markdown body.
Proof.
  unfold data_tab.
  destruct (multiselect _ _ _) as [|c cs]; simpl; eexists; (split; [reflexivity|]).
  - intros ev [H|[]] body. subst ev. discriminate.
  - intros ev [H|[H|[]]] body; subst ev; discriminate.
Qed.

Lemma charts_tab_without_date (w : Widgets) (d : DataFrame) (s : Session) :
  data_source s = Some "yFinance" ->
  has_column "Close" d = true ->
  has_column "Date" d = false ->
  charts_tab w d s =
    mkRun [st_markdown "#### Stock Price Over Time"] s (inl (KeyError "Date")).
Proof.
  intros Hs Hc Hd. unfold charts_tab, bind at 1, get. simpl.
  rewrite Hs, Hc. simpl. unfold price_chart.
  unfold bind at 1. simpl. unfold bind at 1.
  rewrite (price_trace_without_date d s Hd). reflexivity.
Qed.

(** X17. If the Dataset of a yFinance session has a [Close] column but no
    [Date] column, the charts tab stops with [KeyError] right after its
    heading: no chart is drawn, the statistics tab is not reached, and the
    run ends in that exception with the session untouched. *)
Theorem price_chart_needs_date (env : Env) (w : Widgets) (s : Session) (d : DataFrame) :
  df s = Some d ->
  empty d = false ->
  data_source s = Some "yFinance" ->
  has_column "Close" d = true ->
  has_column "Date" d = false ->
  main_content env w s =
    mkRun (log (source_info d s) ++ log (data_tab env w d s)
           ++ [st_markdown "#### Stock Price Over Time"])%list
          s (inl (KeyError "Date")) /\
  (forall fig, ~ In (st_plotly_chart fig) (log (main_content env w s))) /\
  ~ In (st_markdown "#### Descriptive Statistics") (log (main_content env w s)).
Proof.
  intros Hdf He Hs Hc Hd.
  destruct (source_info_run d s) as [banner Hb].
  destruct (data_tab_run env w d s) as [l [Ht Hl]].
  pose proof (charts_tab_without_date w d s Hs Hc Hd) as Hch.
  assert (Hm : main_content env w s =
               mkRun ([st_info banner] ++ l ++ [st_markdown "#### Stock Price Over Time"])%list
                     s (inl (KeyError "Date"))).
  { rewrite main_content_run, Hdf, He.
    rewrite (bind_inr _ _ _ _ _ _ Hb).
    rewrite (bind_inr _ _ _ _ _ _ Ht).
    rewrite (bind_inl _ _ _ _ _ _ Hch). reflexivity. }
  rewrite Hm, Hb, Ht. simpl. split; [reflexivity|]. split.
  - intros fig [H|H]; [discriminate H|].
    apply in_app_or in H. destruct H as [H|[H|[]]]; [|discriminate H].
    unfold data_tab in Ht.
    destruct (multiselect _ _ _) as [|c cs]; simpl in Ht; inversion Ht; subst l;
      simpl in H; intuition discriminate.
  - intros [H|H]; [discriminate H|].
    apply in_app_or in H. destruct H as [H|[H|[]]]; [|discriminate H].
    now apply (Hl _ H "#### Descriptive Statistics").
Qed.

Lemma price_chart_needs_date_witness :
  result (main_content env_timeout untouched (session_yfinance frame_datetime))
  = inl (KeyError "Date").
Proof.
  destruct (price_chart_needs_date env_timeout untouched
              (session_yfinance frame_datetime) frame_datetime
              eq_refl eq_refl eq_refl eq_refl eq_refl) as [H _].
  rewrite H. reflexivity.
Defined.

(* ================================================================== *)
(** * Further properties of the statistics tab *)

(** X18. When there is a Numeric column, the statistics tab draws a
    histogram and a box plot of one and the same Numeric column of the
    Dataset: the chosen one, or the first Numeric column when nothing valid
    is chosen. *)
Theorem distribution_plots (w : Widgets) (d : DataFrame) (s : Session) :
  numeric_cols d <> [] ->
  exists col,
    selectbox (numeric_cols d) (dist_column w) = Some col /\
    In col (numeric_cols d) /\
    (dist_column w = None -> Some col = hd_error (numeric_cols d)) /\
    (forall c, dist_column w = Some c -> In c (numeric_cols d) -> col = c) /\
    In (st_plotly_chart (PxFigure px_histogram d (Some col) None None))
       (log (statistics_tab w d s)) /\
    In (st_plotly_chart (PxFigure px_box d None (Some col) None))
       (log (statistics_tab w d s)) /\
    (forall kind d' x y c,
       In (st_plotly_chart (PxFigure kind d' x y c)) (log (statistics_tab w d s)) ->
       d' = d /\ c = None /\
       ((kind = px_histogram /\ x = Some col /\ y = None) \/
        (kind = px_box /\ x = None /\ y = Some col))).
Proof.
  intros Hne.
  destruct (selectbox_some (numeric_cols d) (dist_column w) Hne) as [col [Ecol Hcol]].
  exists col. split; [exact Ecol|]. split; [exact Hcol|].
  split; [intros Hn; rewrite Hn in Ecol; now rewrite <- Ecol|].
  split.
  { intros c Hc Hin. rewrite Hc in Ecol. unfold selectbox in Ecol.
    apply mem_In in Hin. rewrite Hin in Ecol. now inversion Ecol. }
  assert (Hl : In col (columns d)) by now apply numeric_cols_incl.
  destruct (px_one_known px_histogram d col Hl) as [Hh _].
  destruct (px_one_known px_box d col Hl) as [_ Hb].
  unfold statistics_tab.
  destruct (numeric_cols d) as [|n ns] eqn:En; [congruence|].
  rewrite Ecol. unfold bind, call. rewrite Hh, Hb.
  destruct ns as [|n' ns']; mrun.
  - split; [auto 10|]. split; [auto 10|].
    intros kind d' x y c H.
    repeat (destruct H as [H|H]; [try discriminate H; inversion H; subst; auto 10|]).
    destruct H.
  - split; [auto 10|]. split; [auto 10|].
    intros kind d' x y c H.
    repeat (destruct H as [H|H]; [try discriminate H; inversion H; subst; auto 10|]).
    destruct H.
Qed.

Lemma distribution_plots_witness :
  In (st_plotly_chart (PxFigure px_histogram frame_two_numeric (Some (LStr "a")) None None))
     (log (statistics_tab untouched frame_two_numeric initial_session)) /\
  In (st_plotly_chart (PxFigure px_box frame_two_numeric None (Some (LStr "a")) None))
     (log (statistics_tab untouched frame_two_numeric initial_session)).
Proof.
  assert (Hne : numeric_cols frame_two_numeric <> []) by discriminate.
  destruct (distribution_plots untouched frame_two_numeric initial_session Hne)
    as [col [Ecol [_ [_ [_ [Hh [Hb _]]]]]]].
  inversion Ecol. subst col. split; [exact Hh | exact Hb].
Defined.

(* ================================================================== *)
(** * Further properties of the main content *)

Section Events.

Variable P : Event -> Prop.

Lemma all_ret {A} (a : A) : all_events P (ret a).
Proof. intros s ev []. Qed.

Lemma all_raise {A} (e : Exn) : all_events P (@raise A e).
Proof. intros s ev []. Qed.

Lemma all_call {A} (r : Exn + A) : all_events P (call r).
Proof. intros s ev. destruct r; intros []. Qed.

Lemma all_get : all_events P get.
Proof. intros s ev []. Qed.

Lemma all_emit (e : Event) : P e -> all_events P (emit e).
Proof. intros H s ev [E|[]]. now subst. Qed.

Lemma all_bind {A B} (m : M A) (f : A -> M B) :
  all_events P m -> (forall a, all_events P (f a)) -> all_events P (bind m f).
Proof.
  intros Hm Hf s ev. unfold bind. specialize (Hm s).
  destruct (m s) as [l1 s1 [e|a]]; simpl in *; [apply Hm|].
  specialize (Hf a s1). destruct (f a s1) as [l2 s2 r2]. simpl in *.
  intros H. apply in_app_or in H. destruct H; auto.
Qed.

Lemma all_try {A} (body : M A) (handler : Exn -> option (M A)) :
  all_events P body ->
  (forall e h, handler e = Some h -> all_events P h) ->
  all_events P (try_except body handler).
Proof.
  intros Hb Hh s ev. unfold try_except. specialize (Hb s).
  destruct (body s) as [l1 s1 [e|a]]; simpl in *; [|apply Hb].
  destruct (handler e) as [h|] eqn:E; [|apply Hb].
  specialize (Hh e h E s1). destruct (h s1) as [l2 s2 r2]. simpl in *.
  intros H. apply in_app_or in H. destruct H; auto.
Qed.

End Events.

Ltac events :=
  repeat first
    [ apply all_ret | apply all_raise | apply all_call | apply all_get
    | apply all_emit; split; discriminate
    | apply all_bind; [|intros ?]
    | apply all_try;
      [|let h := fresh "h" in let E := fresh "E" in
        intros ? h E; inversion E; subst h]
    | match goal with
      | |- all_events _ (if ?b then _ else _) => destruct b
      | |- all_events _ (match ?x with _ => _ end) => destruct x
      end ].

Lemma tabs_not_screen (env : Env) (w : Widgets) (d : DataFrame) :
  all_events not_screen
    (source_info d ;; data_tab env w d ;; charts_tab w d ;; statistics_tab w d).
Proof.
  apply all_bind; [unfold source_info; events|intros _].
  apply all_bind; [unfold data_tab; events|intros _].
  apply all_bind; [|intros _; unfold statistics_tab; events].
  unfold charts_tab. apply all_bind; [events|intros s'].
  destruct (_ && _).
  - unfold price_chart.
    apply all_bind; [events|intros _].
    apply all_bind; [unfold price_trace; events|intros t]. events.
  - unfold generic_chart. events.
Qed.

(** X19. The main content shows the welcome screen exactly when the session
    holds no Dataset or an empty one, and the validator's warning exactly
    when it holds an empty one; a Dataset that is shown in the tabs comes
    with neither. *)
Theorem welcome_screen_iff (env : Env) (w : Widgets) (s : Session) :
  (In (st_markdown "## Welcome to the Financial Dashboard!")
      (log (main_content env w s))
   <-> invalid (df s) = true) /\
  (In (st_warning "No data available to display.") (log (main_content env w s))
   <-> exists d, df s = Some d /\ empty d = true).
Proof.
  rewrite main_content_run.
  destruct (df s) as [d|] eqn:Hd; simpl.
  - destruct (empty d) eqn:He; simpl.
    + split; split; auto. intros _. eauto.
    + pose proof (tabs_not_screen env w d s) as Hn. split; split.
      * intros H. apply Hn in H. destruct H as [H _]. now elim H.
      * discriminate.
      * intros H. apply Hn in H. destruct H as [_ H]. now elim H.
      * intros [d' [E H]]. inversion E. congruence.
  - split; split; auto.
    + intros [H|[H|[]]]; discriminate H.
    + intros [d [H _]]. discriminate H.
Qed.

(** X20. A failure of the DataFrame constructor on the JSON list is not
    among the exceptions [fetch_api_data] catches: it escapes the fetch and
    the handler, nothing is reported, the main content is not rendered, and
    the session stays as it was. *)
Theorem constructor_failure_escapes (env : Env) (w : Widgets) (s : Session)
        (resp : Response) (items : list json) (e : Exn) :
  data_source_selector w = "API Link" ->
  fetch_api_button w = true ->
  api_url_input w <> "" ->
  requests_get env (api_url_input w) = inr resp ->
  raise_for_status resp = inr tt ->
  body_json resp = Some (JArr items) ->
  pd_DataFrame items = inl e ->
  is_RequestException e = false ->
  fetch_api_data env (api_url_input w) s = mkRun [] s (inl e) /\
  app env w s = mkRun [] s (inl e).
Proof.
  intros Hsel Hbtn Hurl Hget Hst Hbody Hpd Hne.
  assert (Hf : fetch_api_data env (api_url_input w) s = mkRun [] s (inl e)).
  { rewrite fetch_api_data_try. unfold try_except, api_try, bind, call.
    rewrite Hget. simpl. rewrite Hst. simpl.
    unfold response_json. rewrite Hbody. simpl. rewrite Hpd. simpl.
    pose proof (api_except_run e s) as H.
    destruct (api_except e) as [h|]; [|reflexivity].
    destruct H as [_ H]. congruence. }
  split; [exact Hf|].
  apply String.eqb_neq in Hurl.
  unfold app. apply bind_inl.
  unfold sidebar. rewrite Hsel, Hbtn, Hurl. simpl.
  now apply bind_inl.
Qed.

Lemma constructor_failure_escapes_witness :
  app (env_json json_mixed) w_api (session_yfinance frame_ohlcv)
  = mkRun [] (session_yfinance frame_ohlcv)
          (inl (AttributeError "object has no attribute 'keys'")).
Proof.
  assert (N : api_url_input w_api <> "") by discriminate.
  exact (proj2 (constructor_failure_escapes (env_json json_mixed) w_api
                  (session_yfinance frame_ohlcv)
                  (mkResponse 200 (Some json_mixed))
                  [ JObj [("a", JInt 1)]; JInt 5 ]
                  (AttributeError "object has no attribute 'keys'")
                  eq_refl eq_refl N eq_refl eq_refl eq_refl eq_refl eq_refl)).
Defined.

(* ================================================================== *)
(** * CSV ingestion and export *)

(** ** Splitting and joining *)

Lemma split_not_nil (sep : ascii) (s : string) : split sep s <> [].
Proof.
  destruct s as [|c s]; simpl; [discriminate|].
  destruct (Ascii.eqb c sep); [discriminate|].
  destruct (split sep s); discriminate.
Qed.




Lemma split_single (sep : ascii) (s f : string) : split sep s = [f] -> f = s.
Proof.
  revert f. induction s as [|c s IH]; simpl; intros f H.
  - now inversion H.
  - destruct (Ascii.eqb c sep).
    + inversion H as [[H1 H2]]. now destruct (split_not_nil sep s).
    + destruct (split sep s) as [|f' fs] eqn:E.
      * now destruct (split_not_nil sep s).
      * inversion H; subst. f_equal. now apply IH.
Qed.











(** ** Integer fields *)










Lemma classify_nonblank (f : string) :
  classify_field f <> FEmpty -> nonblank f = true.
Proof.
  unfold classify_field, nonblank. destruct (f =? ""); [congruence|reflexivity].
Qed.

(** ** One column *)








(** ** All columns *)


(** ** Rows and columns *)






(** ** The whole file *)










(** ** Upload, download, upload *)









